(** * Airbnb data viewer: the in-memory listing queries of [app.js]

    A shallow embedding of the route handlers of [src/app.js] and of the
    JavaScript and validator operations they call, followed by the
    properties of the four queries (by index, by id, by partial name, by
    price range), of the preview slice and of the validation gate.

    Conventions.
    - A JavaScript string is a [string] whose characters are read as UTF-16
      code units below 256 (ASCII and Latin-1).  On that range
      [toLowerCase], [trim], [includes], [replace] and [parseFloat] below
      are the ECMAScript operations.
    - A JavaScript number is a [JSNumber]: [NaN], the two infinities, or a
      finite binary64 value held as the rational it denotes.  The sign of
      zero is not kept (no operation of [app.js] observes it).
    - An operation that can throw returns a [Completion].
    - A form is a map from field names to strings; [Body] has the fields
      that arrive as arrays. *)

From Stdlib Require Import QArith ZArith NArith Ascii String Bool Lia.
From Stdlib Require Import DecimalString DecimalPos DecimalN.
From stdpp Require Import gmap strings list.

#[local] Set Warnings "-register-all".
#[local] Arguments String.append !s1 s2 : simpl nomatch.

(** ** Strings *)

Module JSString.

Definition code (c : ascii) : N := N_of_ascii c.

(** ECMAScript WhiteSpace and LineTerminator code points below 256:
    TAB, LF, VT, FF, CR, SP and NBSP. *)
Definition is_white_space (c : ascii) : bool :=
  let n := code c in
  ((9 <=? n) && (n <=? 13) || (n =? 32) || (n =? 160))%N.

(** [String.prototype.toLowerCase] on one code unit: A-Z, and the
    Latin-1 capitals U+00C0..U+00DE except the multiplication sign. *)
Definition lower_unit (c : ascii) : ascii :=
  let n := code c in
  if ((65 <=? n) && (n <=? 90) || (192 <=? n) && (n <=? 214)
      || (216 <=? n) && (n <=? 222))%N
  then ascii_of_N (n + 32) else c.

Fixpoint toLowerCase (s : string) : string :=
  match s with
  | EmptyString => EmptyString
  | String c s' => String (lower_unit c) (toLowerCase s')
  end.

Fixpoint trimStart (s : string) : string :=
  match s with
  | EmptyString => EmptyString
  | String c s' => if is_white_space c then trimStart s' else s
  end.

(** Drops trailing white space: a character is kept when it is not
    white space or when something is kept after it. *)
Fixpoint trimEnd (s : string) : string :=
  match s with
  | EmptyString => EmptyString
  | String c s' =>
      match trimEnd s' with
      | EmptyString => if is_white_space c then EmptyString else String c EmptyString
      | r => String c r
      end
  end.

Definition trim (s : string) : string := trimEnd (trimStart s).

Fixpoint all_white_space (s : string) : bool :=
  match s with
  | EmptyString => true
  | String c s' => is_white_space c && all_white_space s'
  end.

Fixpoint startsWith (s p : string) {struct p} : bool :=
  match p, s with
  | EmptyString, _ => true
  | String _ _, EmptyString => false
  | String a p', String b s' => if Ascii.eqb a b then startsWith s' p' else false
  end.

(** [s.includes(t)]: some position of [s] starts an occurrence of [t]. *)
Fixpoint includes (s t : string) : bool :=
  startsWith s t ||
  match s with
  | EmptyString => false
  | String _ s' => includes s' t
  end.

Fixpoint drop (n : nat) (s : string) : string :=
  match n, s with
  | O, _ => s
  | S _, EmptyString => EmptyString
  | S n', String _ s' => drop n' s'
  end.

(** [s.replace(pat, rep)] for a string pattern and a replacement with no
    [$] pattern in it: the first occurrence of [pat] is replaced. *)
Fixpoint replace (s pat rep : string) : string :=
  if startsWith s pat then rep +:+ drop (String.length pat) s
  else match s with
       | EmptyString => EmptyString
       | String c s' => String c (replace s' pat rep)
       end.

End JSString.

(** ** Numbers *)

Inductive JSNumber :=
  | NaN
  | NegInfinity
  | Finite (q : Q)
  | PosInfinity.

Module Number.

#[local] Open Scope Z_scope.

Definition round_half_even (num den : Z) : Z :=
  let q := num / den in
  match 2 * (num mod den) ?= den with
  | Lt => q
  | Gt => q + 1
  | Eq => if Z.even q then q else q + 1
  end.

(** The binary64 value nearest to [n / d] for [n, d > 0] (ties to even):
    [e] is the binary exponent of [n / d], the spacing of the doubles
    around it is [2 ^ k], and a value that rounds to [2 ^ 1024] or more
    is infinite. *)
Definition binary64_of_pos (n d : Z) : JSNumber :=
  let e0 := Z.log2 n - Z.log2 d in
  let e := if n * 2 ^ Z.max 0 (- e0) <? d * 2 ^ Z.max 0 e0 then e0 - 1 else e0 in
  if 1023 <? e then PosInfinity
  else
    let k := Z.max e (-1022) - 52 in
    let m := round_half_even (n * 2 ^ Z.max 0 (- k)) (d * 2 ^ Z.max 0 k) in
    if 2 ^ 1024 <=? m * 2 ^ Z.max 0 k then PosInfinity
    else Finite (Qred (m * 2 ^ Z.max 0 k # Z.to_pos (2 ^ Z.max 0 (- k)))).

Definition neg (x : JSNumber) : JSNumber :=
  match x with
  | NaN => NaN
  | NegInfinity => PosInfinity
  | Finite q => Finite (Qred (- q))
  | PosInfinity => NegInfinity
  end.

(** The Number value of the decimal [m * 10 ^ x] with [m >= 0]. *)
Definition of_decimal (m x : Z) : JSNumber :=
  if m =? 0 then Finite 0
  else if 0 <=? x then binary64_of_pos (m * 10 ^ x) 1
  else binary64_of_pos m (10 ^ (- x)).

Definition of_Z (z : Z) : JSNumber :=
  if z <? 0 then neg (of_decimal (- z) 0) else of_decimal z 0.

(** [IsLessThan]: [None] is the undefined outcome of a comparison with
    [NaN]. *)
Definition lessThan (x y : JSNumber) : option bool :=
  match x, y with
  | NaN, _ | _, NaN => None
  | _, NegInfinity => Some false
  | NegInfinity, _ => Some true
  | PosInfinity, _ => Some false
  | _, PosInfinity => Some true
  | Finite a, Finite b => Some (negb (Qle_bool b a))
  end.

(** [x >= y] and [x <= y] of JavaScript: false when undefined. *)
Definition ge (x y : JSNumber) : bool :=
  match lessThan x y with Some false => true | _ => false end.

Definition le (x y : JSNumber) : bool :=
  match lessThan y x with Some false => true | _ => false end.

Definition gt (x y : JSNumber) : bool :=
  match lessThan y x with Some true => true | _ => false end.

Definition is_digit (c : ascii) : bool :=
  ((48 <=? JSString.code c) && (JSString.code c <=? 57))%N.

Definition digit_value (c : ascii) : Z := Z.of_N (JSString.code c) - 48.

(** Reads the longest run of decimal digits at the head of [s] on top of
    the accumulator: the value, the number of digits read, the rest. *)
Fixpoint take_digits (s : string) (acc : Z) (cnt : nat) : Z * nat * string :=
  match s with
  | String c s' =>
      if is_digit c then take_digits s' (10 * acc + digit_value c) (S cnt)
      else (acc, cnt, s)
  | EmptyString => (acc, cnt, s)
  end.

(** ExponentPart at the head of [s], 0 when there is none (an [e] with no
    digit after it is not part of the literal). *)
Definition exponent_part (s : string) : Z :=
  match s with
  | String c s' =>
      if Ascii.eqb c "e" || Ascii.eqb c "E" then
        match s' with
        | String "+" s'' =>
            let '(x, n, _) := take_digits s'' 0 O in
            match n with O => 0 | S _ => x end
        | String "-" s'' =>
            let '(x, n, _) := take_digits s'' 0 O in
            match n with O => 0 | S _ => - x end
        | _ =>
            let '(x, n, _) := take_digits s' 0 O in
            match n with O => 0 | S _ => x end
        end
      else 0
  | EmptyString => 0
  end.

(** The longest prefix of [s] that is a StrUnsignedDecimalLiteral, as a
    number; [NaN] when no prefix is one. *)
Definition unsigned_literal (s : string) : JSNumber :=
  if JSString.startsWith s "Infinity" then PosInfinity
  else
    let '(ip, ni, r1) := take_digits s 0 O in
    match r1 with
    | String "." r1' =>
        let '(m, nf, r2) := take_digits r1' ip O in
        match ni, nf with
        | O, O => NaN
        | _, _ => of_decimal m (exponent_part r2 - Z.of_nat nf)
        end
    | _ =>
        match ni with
        | O => NaN
        | S _ => of_decimal ip (exponent_part r1)
        end
    end.

(** [parseFloat(s)] for a string argument. *)
Definition parseFloat (s : string) : JSNumber :=
  match JSString.trimStart s with
  | String "+" r => unsigned_literal r
  | String "-" r => neg (unsigned_literal r)
  | r => unsigned_literal r
  end.

End Number.

(** ** Values, listings and completions *)

(** A parsed JSON value, [undefined], or a built-in that an array inherits
    from its prototypes, known by its name. *)
Inductive JSValue :=
  | JUndefined
  | JNull
  | JBool (b : bool)
  | JNum (n : JSNumber)
  | JStr (s : string)
  | JArr (elts : list JSValue)
  | JObj (props : gmap string JSValue)
  | JBuiltin (name : string).

(** A listing is one object of the JSON array: its own properties. *)
Abbreviation Listing := (gmap string JSValue).

Inductive JSError := TypeError.

Inductive Completion (A : Type) :=
  | Normal (a : A)
  | Throw (e : JSError).
Arguments Normal {A} a.
Arguments Throw {A} e.

#[global] Instance Completion_ret : MRet Completion := fun A a => Normal a.
#[global] Instance Completion_bind : MBind Completion := fun A B f c =>
  match c with
  | Normal a => f a
  | Throw e => Throw e
  end.

(** [ToBoolean]. *)
Definition toBoolean (v : JSValue) : bool :=
  match v with
  | JUndefined | JNull => false
  | JBool b => b
  | JNum NaN => false
  | JNum (Finite q) => negb (Qeq_bool q 0)
  | JNum _ => true
  | JStr s => negb (String.eqb s "")
  | JArr _ | JObj _ | JBuiltin _ => true
  end.

(** [item.key] on a listing, for a key that [Object.prototype] does not
    define ([id], [NAME], [price]): the own property or [undefined]. *)
Definition get (item : Listing) (key : string) : JSValue :=
  default JUndefined (item !! key).

(** [v === s] for a string [s]: no coercion, only an equal string is equal. *)
Definition strictEqualsString (v : JSValue) (s : string) : bool :=
  match v with
  | JStr t => String.eqb t s
  | _ => false
  end.

(** ** Arrays *)

Module Array.

(** [a.slice(start, end)] with integer arguments. *)
Definition slice {A} (a : list A) (start end_ : Z) : list A :=
  let len := Z.of_nat (length a) in
  let k := if (start <? 0)%Z then Z.max (len + start) 0 else Z.min start len in
  let final := if (end_ <? 0)%Z then Z.max (len + end_) 0 else Z.min end_ len in
  take (Z.to_nat (Z.max (final - k) 0)) (drop (Z.to_nat k) a).

(** [a.find(p)] for a predicate that does not throw. *)
Definition find {A} (p : A -> bool) (a : list A) : option A := List.find p a.

(** [a.filter(p)]: the predicate is called on the elements in order and
    the first exception it throws ends the call. *)
Fixpoint filter {A} (p : A -> Completion bool) (a : list A) : Completion (list A) :=
  match a with
  | [] => Normal []
  | x :: a' =>
      b ← p x;
      r ← filter p a';
      Normal (if b : bool then x :: r else r)
  end.

(** A property key is an array index when it is the canonical decimal
    form of an integer below [2 ^ 32 - 1]. *)
Definition index_of_key (key : string) : option N :=
  match NilEmpty.uint_of_string key with
  | Some d =>
      let n := N.of_uint d in
      if String.eqb (NilEmpty.string_of_uint (N.to_uint n)) key && (n <? 2 ^ 32 - 1)%N
      then Some n else None
  | None => None
  end.

(** The property names an array inherits from [Array.prototype] and
    [Object.prototype] (ECMAScript 2023). *)
Definition inherited_keys : list string :=
  [ "at"; "concat"; "constructor"; "copyWithin"; "entries"; "every"; "fill";
    "filter"; "find"; "findIndex"; "findLast"; "findLastIndex"; "flat";
    "flatMap"; "forEach"; "includes"; "indexOf"; "join"; "keys";
    "lastIndexOf"; "map"; "pop"; "push"; "reduce"; "reduceRight"; "reverse";
    "shift"; "slice"; "some"; "sort"; "splice"; "toLocaleString";
    "toReversed"; "toSorted"; "toSpliced"; "toString"; "unshift"; "values";
    "with"; "hasOwnProperty"; "isPrototypeOf"; "propertyIsEnumerable";
    "valueOf"; "__defineGetter__"; "__defineSetter__"; "__lookupGetter__";
    "__lookupSetter__"; "__proto__" ].

(** [a[key]] for a string key on an array of listings: an element, the
    [length], an inherited built-in, or [undefined]. *)
Definition get (a : list Listing) (key : string) : JSValue :=
  match index_of_key key with
  | Some i =>
      match a !! N.to_nat i with
      | Some item => JObj item
      | None => JUndefined
      end
  | None =>
      if String.eqb key "length" then JNum (Number.of_Z (Z.of_nat (length a)))
      else if existsb (String.eqb key) inherited_keys then JBuiltin key
      else JUndefined
  end.

End Array.

(** ** validator.js and express-validator *)

Module Validator.

Definition isEmpty (s : string) : bool := Nat.eqb (String.length s) 0.

(** [isNumeric]: the pattern [^[+-]?([0-9]*[.])?[0-9]+$]. *)
Definition isNumeric (s : string) : bool :=
  let unsigned :=
    match s with
    | String "+" r | String "-" r => r
    | _ => s
    end in
  let '(_, ni, r1) := Number.take_digits unsigned 0%Z O in
  match r1 with
  | EmptyString => negb (Nat.eqb ni 0)
  | String "." r1' =>
      let '(_, nf, r2) := Number.take_digits r1' 0%Z O in
      negb (Nat.eqb nf 0) && String.eqb r2 ""
  | _ => false
  end.

(** [trim] with no character set strips [\s], the white space of
    [String.prototype.trim]. *)
Definition trim (s : string) : string := JSString.trim s.

Definition escape_unit (c : ascii) : string :=
  match JSString.code c with
  | 38%N => "&amp;"
  | 34%N => "&quot;"
  | 39%N => "&#x27;"
  | 60%N => "&lt;"
  | 62%N => "&gt;"
  | 47%N => "&#x2F;"
  | 92%N => "&#x5C;"
  | 96%N => "&#96;"
  | _ => String c EmptyString
  end.

Fixpoint escape (s : string) : string :=
  match s with
  | EmptyString => EmptyString
  | String c s' => escape_unit c +:+ escape s'
  end.

(** One link of a validation chain. *)
Inductive Link :=
  | notEmpty
  | isNumeric_
  | withMessage (m : string)
  | trim_
  | escape_.

(** An entry of [errors.array()]. *)
Record FieldError := { path : string; msg : string; value : string }.

Definition passes (l : Link) (v : string) : bool :=
  match l with
  | notEmpty => negb (isEmpty v)
  | isNumeric_ => isNumeric v
  | _ => true
  end.

(** Runs a chain on a field: every validator is run on the current value
    (a failure does not stop the chain), [withMessage] names the message
    of the validator before it, a sanitizer replaces the value.  Returns
    the errors in order and the sanitized value. *)
Fixpoint run (chain : list Link) (field v : string) : list FieldError * string :=
  match chain with
  | [] => ([], v)
  | trim_ :: rest => run rest field (trim v)
  | escape_ :: rest => run rest field (escape v)
  | withMessage _ :: rest => run rest field v
  | check :: rest =>
      let m := match rest with withMessage m :: _ => m | _ => "Invalid value" end in
      let '(es, v') := run rest field v in
      (if passes check v then es else {| path := field; msg := m; value := v |} :: es, v')
  end.

(** [body(field)...] applied to a urlencoded body whose fields are
    strings; an absent field is validated as the empty string. *)
Definition body (field : string) (chain : list Link) (form : gmap string string)
  : list FieldError * string :=
  run chain field (default "" (form !! field)).

End Validator.
(** ** Responses *)

(** A piece of a template literal: text, or a number still to be printed. *)
Inductive Piece :=
  | Lit (s : string)
  | Num (n : JSNumber).

(** A value handed to a view. *)
Inductive Local :=
  | LText (t : list Piece)
  | LValue (v : JSValue)
  | LListings (l : list Listing)
  | LErrors (es : list Validator.FieldError).

(** What a handler answers: [res.render] of a view with its locals (under
    a status code), [res.send], or an exception left to Express. *)
Inductive Response :=
  | Render (status : nat) (view : string) (locals : list (string * Local))
  | Send (body : string)
  | Uncaught (e : JSError).

Definition text (s : string) : Local := LText [Lit s].

Definition quote : string := String (ascii_of_N 34) EmptyString.

(** ** The routes of [app.js] *)

(** [GET /allData] *)
Module AllData.

Definition limitedData (airbnb_json : list Listing) : list Listing :=
  Array.slice airbnb_json 0 20.

Definition handler (airbnb_json : list Listing) : Response :=
  Render 200 "allData"
    [("title", text "First 20 Airbnb Listings");
     ("listings", LListings (limitedData airbnb_json))].

End AllData.

(** [GET /allData/invoiceID/:index] *)
Module InvoiceIndex.

Definition record (airbnb_json : list Listing) (index : string) : JSValue :=
  Array.get airbnb_json index.

Definition handler (airbnb_json : list Listing) (index : string) : Response :=
  Render 200 "id_search_result"
    [("title", text "Property Detail");
     ("record", LValue (record airbnb_json index))].

End InvoiceIndex.

(** [POST /search/invoiceID] *)
Module SearchInvoiceID.

Import Validator.

Definition chain : list Link :=
  [notEmpty; withMessage "Property ID is required";
   isNumeric_; withMessage "Property ID must be a number";
   trim_; escape_].

Definition record (airbnb_json : list Listing) (id : string) : JSValue :=
  match Array.find (fun item => strictEqualsString (get item "id") id) airbnb_json with
  | Some item => JObj item
  | None => JUndefined
  end.

Definition handler (airbnb_json : list Listing) (form : gmap string string) : Response :=
  let '(errors, property_id) := body "property_id" chain form in
  if negb (Nat.eqb (length errors) 0) then
    Render 200 "search_id_form"
      [("title", text "Search by Invoice ID"); ("errors", LErrors errors)]
  else
    let id := property_id in
    let record := record airbnb_json id in
    if negb (toBoolean record) then
      Render 200 "id_search_result"
        [("title", text "Search Result");
         ("message", text "No property found with that ID")]
    else
      Render 200 "id_search_result"
        [("title", text "Search Result"); ("record", LValue record)].

End SearchInvoiceID.

(** [POST /search/name], for a body whose fields are strings; [Body.search_name]
    below is the handler for bodies with repeated fields and agrees with
    this one on strings. *)
Module SearchName.

Import Validator.

Definition chain : list Link :=
  [notEmpty; withMessage "Property name is required"; trim_; escape_].

Definition searchName (name : string) : string :=
  JSString.toLowerCase (JSString.trim name).

(** [item.NAME && item.NAME.toLowerCase().includes(searchName)]: a falsy
    [NAME] is the (falsy) result; a truthy one that is not a string has
    no [toLowerCase] to call. *)
Definition matches (searchName : string) (item : Listing) : Completion bool :=
  let NAME := get item "NAME" in
  if toBoolean NAME then
    match NAME with
    | JStr s => Normal (JSString.includes (JSString.toLowerCase s) searchName)
    | _ => Throw TypeError
    end
  else Normal false.

Definition matchedProperties (airbnb_json : list Listing) (name : string)
  : Completion (list Listing) :=
  Array.filter (matches (searchName name)) airbnb_json.

Definition handler (airbnb_json : list Listing) (form : gmap string string) : Response :=
  let '(errors, name) := body "name" chain form in
  if negb (Nat.eqb (length errors) 0) then
    Render 200 "search_name_form"
      [("title", text "Search by Property Name"); ("errors", LErrors errors)]
  else
    match matchedProperties airbnb_json name with
    | Throw e => Uncaught e
    | Normal matched =>
        if Nat.eqb (length matched) 0 then
          Render 200 "search_name_result"
            [("title", text "Search Result");
             ("message", text ("No properties found containing " +:+ quote +:+ name +:+ quote))]
        else
          Render 200 "search_name_result"
            [("title", text "Search Results");
             ("matchedProperties", LListings matched);
             ("query", text name)]
    end.

End SearchName.

(** [POST /viewData/price] *)
Module ViewDataPrice.

Import Validator.

Definition minPrice_chain : list Link :=
  [notEmpty; withMessage "Minimum price is required";
   isNumeric_; withMessage "Minimum price must be a number";
   trim_; escape_].

Definition maxPrice_chain : list Link :=
  [notEmpty; withMessage "Maximum price is required";
   isNumeric_; withMessage "Maximum price must be a number";
   trim_; escape_].

(** The price of a listing as the filter reads it:
    [parseFloat(item.price.replace("$", "").trim())]; only a string has a
    [replace] to call. *)
Definition price (item : Listing) : Completion JSNumber :=
  match get item "price" with
  | JStr s => Normal (Number.parseFloat (JSString.trim (JSString.replace s "$" "")))
  | _ => Throw TypeError
  end.

Definition in_range (min max : JSNumber) (item : Listing) : Completion bool :=
  price ← price item;
  Normal (Number.ge price min && Number.le price max).

Definition filteredListings (airbnb_json : list Listing) (min max : JSNumber)
  : Completion (list Listing) :=
  Array.filter (in_range min max) airbnb_json.

Definition handler (airbnb_json : list Listing) (form : gmap string string) : Response :=
  let '(errors_min, minPrice) := body "minPrice" minPrice_chain form in
  let '(errors_max, maxPrice) := body "maxPrice" maxPrice_chain form in
  let errors := errors_min ++ errors_max in
  if negb (Nat.eqb (length errors) 0) then
    Render 200 "price_form"
      [("title", text "Search by Price Range"); ("errors", LErrors errors)]
  else
    let min := Number.parseFloat minPrice in
    let max := Number.parseFloat maxPrice in
    match filteredListings airbnb_json min max with
    | Throw e => Uncaught e
    | Normal filtered =>
        if Nat.eqb (length filtered) 0 then
          Render 200 "price_result"
            [("title", text "Search Result");
             ("message", LText [Lit "No listings found between $"; Num min;
                                Lit " and $"; Num max])]
        else
          Render 200 "price_result"
            [("title", LText [Lit "Listings between $"; Num min;
                              Lit " and $"; Num max]);
             ("listings", LListings filtered)]
    end.

End ViewDataPrice.

(** ** The server *)

Inductive Request :=
  | GET_users
  | GET_home
  | GET_allData
  | GET_about
  | GET_allData_invoiceID (index : string)
  | GET_search_invoiceID
  | POST_search_invoiceID (form : gmap string string)
  | GET_search_name
  | POST_search_name (form : gmap string string)
  | GET_viewData
  | GET_viewData_clean
  | GET_viewData_price
  | POST_viewData_price (form : gmap string string)
  | Unmatched.

(** The state of the process after startup: the parsed dataset. *)
Record Process := { airbnb_json : list Listing }.

(** One request: the response, and the state the handler leaves (no
    handler assigns [airbnb_json] or writes to a listing). *)
Definition handle (req : Request) (p : Process) : Response * Process :=
  let data := airbnb_json p in
  match req with
  | GET_users => (Send "Respond with a resource", p)
  | GET_home => (Render 200 "index" [("title", text "Airbnb Data Viewer")], p)
  | GET_allData => (AllData.handler data, p)
  | GET_about => (Render 200 "resume" [("title", text "About Me")], p)
  | GET_allData_invoiceID index => (InvoiceIndex.handler data index, p)
  | GET_search_invoiceID =>
      (Render 200 "search_id_form" [("title", text "Search by Invoice ID")], p)
  | POST_search_invoiceID form => (SearchInvoiceID.handler data form, p)
  | GET_search_name =>
      (Render 200 "search_name_form" [("title", text "Search by Property Name")], p)
  | POST_search_name form => (SearchName.handler data form, p)
  | GET_viewData =>
      (Render 200 "viewData"
         [("title", text "All Airbnb Data"); ("listings", LListings data)], p)
  | GET_viewData_clean =>
      (Render 200 "viewData_clean"
         [("title", text "All Airbnb Data(cleaned)"); ("listings", LListings data)], p)
  | GET_viewData_price =>
      (Render 200 "price_form" [("title", text "Search by Price Range")], p)
  | POST_viewData_price form => (ViewDataPrice.handler data form, p)
  | Unmatched =>
      (Render 404 "error" [("title", text "Error"); ("message", text "Wrong Route")], p)
  end.

(** A run of the server on a sequence of requests. *)
Fixpoint serve (reqs : list Request) (p : Process) : list Response * Process :=
  match reqs with
  | [] => ([], p)
  | req :: reqs' =>
      let '(r, p') := handle req p in
      let '(rs, p'') := serve reqs' p' in
      (r :: rs, p'')
  end.

(** ** The notions of the specification *)

Module Spec.

(** Partial match: case-insensitive substring containment, the case
    folded on both sides. *)
Definition contains_ci (name q : string) : Prop :=
  exists pre post,
    JSString.toLowerCase name = pre +:+ JSString.toLowerCase q +:+ post.

(** The order of the numbers: the rationals between the two infinities;
    [NaN] is below and above nothing. *)
Definition le (x y : JSNumber) : Prop :=
  match x, y with
  | NaN, _ | _, NaN => False
  | NegInfinity, _ => True
  | _, PosInfinity => True
  | Finite a, Finite b => (a <= b)%Q
  | _, _ => False
  end.


(** The data model: a [NAME] is a string, or absent (or another falsy
    value, as JSON [null]); a [price] is a string. *)
Definition name_ok (item : Listing) : bool :=
  match get item "NAME" with
  | JStr _ => true
  | v => negb (toBoolean v)
  end.

Definition price_ok (item : Listing) : bool :=
  match get item "price" with
  | JStr _ => true
  | _ => false
  end.

(** A listing with a non-empty name. *)
Definition named (item : Listing) : bool :=
  match get item "NAME" with
  | JStr s => negb (String.eqb s "")
  | _ => false
  end.

(** The lowered name of a listing includes [searchName]. *)
Definition name_includes (searchName : string) (item : Listing) : bool :=
  match get item "NAME" with
  | JStr s => JSString.includes (JSString.toLowerCase s) searchName
  | _ => false
  end.

(** The decimal form of an integer, as a path parameter carries it. *)
Definition decimal (i : Z) : string :=
  if (i <? 0)%Z then String "-" (NilEmpty.string_of_uint (N.to_uint (Z.to_N (- i))))
  else NilEmpty.string_of_uint (N.to_uint (Z.to_N i)).

(** The value of a form field; an absent field counts as empty. *)
Definition field (form : gmap string string) (k : string) : string :=
  default "" (form !! k).

(** A request whose form fails validation: an empty required field, or a
    [property_id], [minPrice] or [maxPrice] that is not numeric. *)
Definition invalid (req : Request) : Prop :=
  match req with
  | POST_search_invoiceID form =>
      field form "property_id" = "" \/
      Validator.isNumeric (field form "property_id") = false
  | POST_search_name form => field form "name" = ""
  | POST_viewData_price form =>
      field form "minPrice" = "" \/
      Validator.isNumeric (field form "minPrice") = false \/
      field form "maxPrice" = "" \/
      Validator.isNumeric (field form "maxPrice") = false
  | _ => False
  end.

(** The request that shows the form a submission came from. *)
Definition form_of (req : Request) : Request :=
  match req with
  | POST_search_invoiceID _ => GET_search_invoiceID
  | POST_search_name _ => GET_search_name
  | POST_viewData_price _ => GET_viewData_price
  | _ => req
  end.

End Spec.

(** ** Sample data *)

Module Sample.

(** The two records of the specification's scenario, as written there. *)
Definition cozy_loft : Listing :=
  {[ "id" := JStr "1"; "name" := JStr "Cozy Loft"; "price" := JStr "$100.00" ]}.
Definition sunny_flat : Listing :=
  {[ "id" := JStr "2"; "name" := JStr "Sunny Flat"; "price" := JStr "$250.00" ]}.
Definition dataset : list Listing := [cozy_loft; sunny_flat].

(** The same records with the name under the key of the data file. *)
Definition Cozy_Loft : Listing :=
  {[ "id" := JStr "1"; "NAME" := JStr "Cozy Loft"; "price" := JStr "$100.00" ]}.
Definition Sunny_Flat : Listing :=
  {[ "id" := JStr "2"; "NAME" := JStr "Sunny Flat"; "price" := JStr "$250.00" ]}.
Definition Dataset : list Listing := [Cozy_Loft; Sunny_Flat].

(** A record with no price, one with a price that is no number, one with
    the dollar sign after the minus sign, one with a numeric id. *)
Definition no_price : Listing := {[ "id" := JStr "3"; "NAME" := JStr "Unpriced" ]}.
Definition bad_price : Listing :=
  {[ "id" := JStr "4"; "NAME" := JStr "Call us"; "price" := JStr "on request" ]}.
Definition numeric_id : Listing :=
  {[ "id" := JNum (Finite 2); "NAME" := JStr "Numbered"; "price" := JStr "$80" ]}.

End Sample.

(** ** The view helpers of [app.js] *)

(** The two Handlebars helpers registered with the engine, applied to the
    value the template passes. *)
Module Helpers.

(** [!fee || fee.trim() === ""] then "0", else the fee itself; only a
    string has a [trim] to call. *)
Definition formatServiceFee (fee : JSValue) : Completion JSValue :=
  if negb (toBoolean fee) then Normal (JStr "0")
  else
    match fee with
    | JStr s => if String.eqb (JSString.trim s) "" then Normal (JStr "0") else Normal fee
    | _ => Throw TypeError
    end.

Definition highlightIfEmpty (fee : JSValue) : Completion string :=
  if negb (toBoolean fee) then Normal "background-color:#ffe8e8; font-weight:bold;"
  else
    match fee with
    | JStr s =>
        if String.eqb (JSString.trim s) ""
        then Normal "background-color:#ffe8e8; font-weight:bold;"
        else Normal ""
    | _ => Throw TypeError
    end.

End Helpers.

(** ** Predicates on values and characters *)

Module Pred.

(** Every code unit of [s] satisfies [f]. *)
Fixpoint all (f : ascii -> bool) (s : string) : bool :=
  match s with
  | EmptyString => true
  | String c s' => f c && all f s'
  end.

(** A value with nothing to show: falsy, or a string of white space. *)
Definition blank (v : JSValue) : bool :=
  negb (toBoolean v) ||
  match v with
  | JStr s => JSString.all_white_space s
  | _ => false
  end.

(** A string, or a falsy value. *)
Definition string_or_falsy (v : JSValue) : bool :=
  match v with
  | JStr _ => true
  | _ => negb (toBoolean v)
  end.

(** The characters a numeric field is made of. *)
Definition numeric_unit (c : ascii) : bool :=
  Number.is_digit c || Ascii.eqb c "+" || Ascii.eqb c "-" || Ascii.eqb c ".".

(** The characters [escape] leaves in no string: the quotes, the angle
    brackets, the slashes and the backtick. *)
Definition special (c : ascii) : bool :=
  let n := JSString.code c in
  ((n =? 34) || (n =? 39) || (n =? 60) || (n =? 62) || (n =? 47) || (n =? 92)
   || (n =? 96))%N.

(** A character that cannot continue a decimal literal after its digits. *)
Definition stops (c : ascii) : bool :=
  negb (Number.is_digit c || Ascii.eqb c "." || Ascii.eqb c "e" || Ascii.eqb c "E").

(** Not [NaN]. *)
Definition is_number (x : JSNumber) : bool :=
  match x with
  | NaN => false
  | _ => true
  end.

(** Digits, or digits, a dot and digits, to the end of the string: what
    [isNumeric] asks of a field after its sign. *)
Definition unsigned_numeric (u : string) : bool :=
  let '(_, ni, r1) := Number.take_digits u 0%Z O in
  match r1 with
  | EmptyString => negb (Nat.eqb ni 0)
  | String "." r1' =>
      let '(_, nf, r2) := Number.take_digits r1' 0%Z O in
      negb (Nat.eqb nf 0) && String.eqb r2 ""
  | _ => false
  end.

(** The first code unit of a non-empty string is not white space. *)
Definition starts_well (s : string) : bool :=
  match s with
  | EmptyString => true
  | String c _ => negb (JSString.is_white_space c)
  end.

(** The last code unit of a non-empty string is not white space. *)
Fixpoint ends_well (s : string) : bool :=
  match s with
  | EmptyString => true
  | String c s' =>
      match s' with
      | EmptyString => negb (JSString.is_white_space c)
      | String _ _ => ends_well s'
      end
  end.

End Pred.

(** ** Bodies with repeated fields *)

Module Body.

(** A field of a body parsed by [express.urlencoded({ extended: true })]:
    a string, or, for a field that occurs more than once or is written
    [field[]], the array of its strings.  (A field with sub-keys, which
    arrives as an object, is not modelled.) *)
Inductive Field :=
  | Single (s : string)
  | Repeated (elts : list string).

(** A chain on the values of a field: a validator is run on every value
    and reports each value that fails, in order; a sanitizer replaces
    every value. *)
Fixpoint run_values (chain : list Validator.Link) (field : string) (vs : list string)
  : list Validator.FieldError * list string :=
  match chain with
  | [] => ([], vs)
  | Validator.trim_ :: rest => run_values rest field (map Validator.trim vs)
  | Validator.escape_ :: rest => run_values rest field (map Validator.escape vs)
  | Validator.withMessage _ :: rest => run_values rest field vs
  | check :: rest =>
      let m := match rest with Validator.withMessage m :: _ => m | _ => "Invalid value" end in
      let '(es, vs') := run_values rest field vs in
      (map (fun v => {| Validator.path := field; Validator.msg := m; Validator.value := v |})
           (List.filter (fun v => negb (Validator.passes check v)) vs) ++ es,
       vs')
  end.

(** [body(field)...] on such a body: an array is validated and sanitized
    value by value and stays an array; a string is treated as the array of
    itself and unwrapped again; an absent field is validated as the empty
    string. *)
Definition body (field : string) (chain : list Validator.Link) (b : gmap string Field)
  : list Validator.FieldError * Field :=
  match b !! field with
  | Some (Repeated vs) =>
      let '(es, vs') := run_values chain field vs in (es, Repeated vs')
  | Some (Single v) =>
      let '(es, vs') := run_values chain field [v] in (es, Single (hd "" vs'))
  | None =>
      let '(es, vs') := run_values chain field [""] in (es, Single (hd "" vs'))
  end.

(** [POST /search/name] on such a body.  [req.body.name.trim()] is called
    on the sanitized value, and an array has no [trim]. *)
Definition search_name (airbnb_json : list Listing) (b : gmap string Field) : Response :=
  let '(errors, name) := body "name" SearchName.chain b in
  if negb (Nat.eqb (length errors) 0) then
    Render 200 "search_name_form"
      [("title", text "Search by Property Name"); ("errors", LErrors errors)]
  else
    match name with
    | Repeated _ => Uncaught TypeError
    | Single name =>
        match SearchName.matchedProperties airbnb_json name with
        | Throw e => Uncaught e
        | Normal matched =>
            if Nat.eqb (length matched) 0 then
              Render 200 "search_name_result"
                [("title", text "Search Result");
                 ("message", text ("No properties found containing " +:+ quote +:+ name +:+ quote))]
            else
              Render 200 "search_name_result"
                [("title", text "Search Results");
                 ("matchedProperties", LListings matched);
                 ("query", text name)]
        end
    end.

End Body.

(** ** Reading a response *)

(** The local that a response hands to its view under [key], if any. *)
Definition local_of (r : Response) (key : string) : option Local :=
  match r with
  | Render _ _ locals => snd <$> List.find (fun kv => String.eqb (fst kv) key) locals
  | _ => None
  end.

(** * Properties *)

(** ** Strings *)

Section StringFacts.

Import JSString.

Lemma startsWith_spec (p s : string) :
  startsWith s p = true <-> exists r, s = p +:+ r.
Proof.
  revert s. induction p as [|a p IH]; intros s; simpl.
  - split; [intros _; exists s; reflexivity | destruct s; reflexivity].
  - destruct s as [|b s].
    + split; [discriminate | intros [r Hr]; discriminate].
    + simpl. destruct (Ascii.eqb_spec a b) as [->|Hab].
      * rewrite IH. split; intros [r Hr]; exists r; simpl in *; congruence.
      * split; [discriminate | intros [r Hr]; simpl in Hr; congruence].
Qed.

(** [includes] is substring containment. *)
Lemma includes_spec (s t : string) :
  includes s t = true <-> exists pre post, s = pre +:+ t +:+ post.
Proof.
  split.
  - induction s as [|c s IH]; cbn [includes]; rewrite orb_true_iff.
    + intros [H|H]; [|discriminate].
      apply startsWith_spec in H as [r Hr]. exists "", r. exact Hr.
    + intros [H|H].
      * apply startsWith_spec in H as [r Hr]. exists "", r. exact Hr.
      * destruct (IH H) as (pre & post & ->). exists (String c pre), post. reflexivity.
  - intros (pre & post & ->). induction pre as [|c pre IH].
    + change ("" +:+ t +:+ post) with (t +:+ post).
      destruct (t +:+ post) eqn:E; cbn [includes]; rewrite orb_true_iff; left;
        apply startsWith_spec; exists post; congruence.
    + change (String c pre +:+ t +:+ post) with (String c (pre +:+ t +:+ post)).
      cbn [includes]. rewrite orb_true_iff. right. exact IH.
Qed.

Lemma includes_empty (s : string) : includes s "" = true.
Proof. destruct s; reflexivity. Qed.

Lemma trimStart_white (s : string) : all_white_space s = true -> trimStart s = "".
Proof.
  induction s as [|c s IH]; simpl; [reflexivity|].
  rewrite andb_true_iff. intros [-> H]. auto.
Qed.

Lemma trim_white (s : string) : all_white_space s = true -> trim s = "".
Proof. intros H. unfold trim. rewrite trimStart_white by exact H. reflexivity. Qed.

End StringFacts.

(** ** Numbers *)

Section NumberFacts.

(** The comparisons of JavaScript decide the order of the numbers. *)
Lemma le_spec (x y : JSNumber) : Number.le x y = true <-> Spec.le x y.
Proof.
  unfold Number.le, Number.lessThan, Spec.le.
  destruct x as [| |a|], y as [| |b|];
    try (split; [discriminate | tauto]); try tauto.
  destruct (Qle_bool a b) eqn:E; cbn [negb].
  - apply Qle_bool_iff in E. tauto.
  - split; [discriminate|]. intros H. apply Qle_bool_iff in H. congruence.
Qed.

Lemma ge_spec (x y : JSNumber) : Number.ge x y = true <-> Spec.le y x.
Proof.
  unfold Number.ge, Number.lessThan, Spec.le.
  destruct x as [| |a|], y as [| |b|];
    try (split; [discriminate | tauto]); try tauto.
  destruct (Qle_bool b a) eqn:E; cbn [negb].
  - apply Qle_bool_iff in E. tauto.
  - split; [discriminate|]. intros H. apply Qle_bool_iff in H. congruence.
Qed.

Lemma le_trans (x y z : JSNumber) : Spec.le x y -> Spec.le y z -> Spec.le x z.
Proof.
  unfold Spec.le.
  destruct x as [| |a|], y as [| |b|], z as [| |c|]; try tauto.
  apply Qle_trans.
Qed.

(** [x > y] excludes [x <= y]. *)
Lemma gt_not_le (x y : JSNumber) : Number.gt x y = true -> ~ Spec.le x y.
Proof.
  unfold Number.gt, Number.lessThan, Spec.le.
  destruct x as [| |a|], y as [| |b|]; try discriminate; try tauto.
  destruct (Qle_bool a b) eqn:E; cbn [negb]; [discriminate|].
  intros _ H. apply Qle_bool_iff in H. congruence.
Qed.

(** No number lies in a reversed interval. *)
Lemma reversed_interval (min max p : JSNumber) :
  Number.gt min max = true -> Number.ge p min && Number.le p max = false.
Proof.
  intros Hgt. apply not_true_is_false. rewrite andb_true_iff, ge_spec, le_spec.
  intros [H1 H2]. exact (gt_not_le _ _ Hgt (le_trans _ _ _ H1 H2)).
Qed.

End NumberFacts.

(** ** Arrays *)

Section ArrayFacts.

Context {A : Type}.

(** A predicate that never throws makes [filter] the filter of lists. *)
Lemma filter_total (p : A -> Completion bool) (f : A -> bool) (a : list A) :
  (forall x, x ∈ a -> p x = Normal (f x)) ->
  Array.filter p a = Normal (List.filter f a).
Proof.
  induction a as [|x a IH]; intros Hp; simpl; [reflexivity|].
  rewrite (Hp x) by apply list_elem_of_here. simpl.
  rewrite IH by (intros y Hy; apply Hp, list_elem_of_further, Hy). simpl.
  destruct (f x); reflexivity.
Qed.

(** An element on which the predicate throws makes [filter] throw. *)
Lemma filter_throws (p : A -> Completion bool) (a : list A) (x : A) (e : JSError) :
  x ∈ a -> p x = Throw e -> exists e', Array.filter p a = Throw e'.
Proof.
  intros Hx Hp. induction Hx as [x a|x y a Hx IH]; simpl.
  - rewrite Hp. exists e. reflexivity.
  - destruct (p y) as [b|e1]; simpl; [|exists e1; reflexivity].
    destruct (IH Hp) as [e' ->]. exists e'. reflexivity.
Qed.

Lemma elem_of_List_filter (f : A -> bool) (a : list A) (x : A) :
  x ∈ List.filter f a <-> x ∈ a /\ f x = true.
Proof. rewrite !list_elem_of_In. apply filter_In. Qed.

(** Filtering keeps the order: the result is a sublist. *)
Lemma sublist_List_filter (f : A -> bool) (a : list A) :
  List.filter f a `sublist_of` a.
Proof.
  induction a as [|x a IH]; simpl; [constructor|].
  destruct (f x); [apply sublist_skip | apply sublist_cons]; exact IH.
Qed.

Lemma List_filter_nil (f : A -> bool) (a : list A) :
  (forall x, x ∈ a -> f x = false) -> List.filter f a = [].
Proof.
  induction a as [|x a IH]; intros H; simpl; [reflexivity|].
  rewrite (H x) by apply list_elem_of_here.
  apply IH. intros y Hy. apply H, list_elem_of_further, Hy.
Qed.

(** [find] returns the first element that satisfies the predicate. *)
Lemma find_first (f : A -> bool) (a : list A) (x : A) :
  Array.find f a = Some x <->
  exists pre post, a = pre ++ x :: post /\ f x = true /\ Forall (fun y => f y = false) pre.
Proof.
  unfold Array.find. induction a as [|y a IH]; simpl.
  - split; [discriminate|]. intros (pre & post & H & _). destruct pre; discriminate.
  - destruct (f y) eqn:Ey.
    + split.
      * intros [= ->]. exists [], a. auto.
      * intros ([|z pre] & post & H & Hx & Hpre); simpl in H.
        -- congruence.
        -- injection H as -> ->. apply Forall_cons in Hpre as [Hz _]. congruence.
    + rewrite IH. split.
      * intros (pre & post & -> & Hx & Hpre). exists (y :: pre), post. auto.
      * intros ([|z pre] & post & H & Hx & Hpre); simpl in H.
        -- congruence.
        -- injection H as -> ->. apply Forall_cons in Hpre as [_ Hpre]. eauto.
Qed.

Lemma find_none (f : A -> bool) (a : list A) :
  Array.find f a = None <-> Forall (fun y => f y = false) a.
Proof.
  unfold Array.find. induction a as [|y a IH]; simpl.
  - split; auto.
  - destruct (f y) eqn:Ey.
    + split; [discriminate|]. intros H. apply Forall_cons in H as [H _]. congruence.
    + rewrite IH. split; [auto|]. intros H. apply Forall_cons in H as [_ H]. exact H.
Qed.

(** [slice(0, n)] keeps the first [n] elements. *)
Lemma slice_0 (a : list A) (n : nat) : Array.slice a 0 (Z.of_nat n) = take n a.
Proof.
  unfold Array.slice.
  replace (0 <? 0)%Z with false by reflexivity.
  replace (Z.of_nat n <? 0)%Z with false by (symmetry; apply Z.ltb_ge; lia).
  replace (Z.to_nat (Z.min 0 (Z.of_nat (length a)))) with O by lia.
  rewrite drop_0.
  replace (Z.to_nat _) with (Nat.min n (length a)) by lia.
  rewrite <- take_take. rewrite (take_ge a (length a)) by lia. reflexivity.
Qed.

End ArrayFacts.

(** ** Search by name *)

Section SearchNameFacts.

Import SearchName.

Lemma contains_ci_includes (s q : string) :
  Spec.contains_ci s q <->
  JSString.includes (JSString.toLowerCase s) (JSString.toLowerCase q) = true.
Proof. unfold Spec.contains_ci. symmetry. apply includes_spec. Qed.

(** On a well-typed name the predicate of the filter does not throw. *)
Lemma matches_total (sn : string) (item : Listing) :
  Spec.name_ok item = true ->
  matches sn item = Normal (Spec.named item && Spec.name_includes sn item).
Proof.
  unfold Spec.name_ok, matches, Spec.named, Spec.name_includes.
  destruct (get item "NAME") as [| |b|[| |x|]|s|l|o|f]; cbn [toBoolean];
    try reflexivity; try discriminate.
  - intros H. apply negb_true_iff in H. rewrite H. reflexivity.
  - intros H. apply negb_true_iff in H. rewrite H. reflexivity.
  - intros _. destruct (String.eqb s ""); reflexivity.
Qed.

Lemma matchedProperties_total (data : list Listing) (q : string) :
  forallb Spec.name_ok data = true ->
  matchedProperties data q =
    Normal (List.filter (fun item => Spec.named item && Spec.name_includes (searchName q) item) data).
Proof.
  intros Hok. apply filter_total. intros item Hin. apply matches_total.
  rewrite forallb_forall in Hok. apply Hok, list_elem_of_In, Hin.
Qed.

Lemma named_spec (item : Listing) :
  Spec.named item = true <-> exists s, get item "NAME" = JStr s /\ s <> "".
Proof.
  unfold Spec.named. destruct (get item "NAME") as [| |b|n|s|l|o|f];
    try (split; [discriminate | intros (s' & [=] & _)]).
  rewrite negb_true_iff, String.eqb_neq. split.
  - intros H. exists s. auto.
  - intros (s' & [= <-] & H). exact H.
Qed.

End SearchNameFacts.

(** C1 (amended).  The name search is sound and complete over the [NAME]
    field of the listings and the trimmed query: on a dataset whose names
    are strings where present, the search returns a result; a listing is in
    it exactly when it is in the dataset and its [NAME] is a non-empty
    string that contains the trimmed query case-insensitively; and the
    result keeps the order of the dataset. *)
Theorem ByNamePartial_sound_complete (data : list Listing) (q : string) :
  forallb Spec.name_ok data = true ->
  exists res,
    SearchName.matchedProperties data q = Normal res /\
    (forall item, item ∈ res <->
       item ∈ data /\
       exists s, get item "NAME" = JStr s /\ s <> "" /\
                 Spec.contains_ci s (JSString.trim q)) /\
    res `sublist_of` data.
Proof.
  intros Hok. eexists. split; [apply matchedProperties_total, Hok|]. split.
  - intros item. rewrite elem_of_List_filter, andb_true_iff, named_spec.
    unfold Spec.name_includes, SearchName.searchName. split.
    + intros (Hin & (s & Hs & Hne) & Hinc). split; [exact Hin|].
      exists s. rewrite Hs in Hinc. repeat split; try assumption.
      apply contains_ci_includes, Hinc.
    + intros (Hin & s & Hs & Hne & Hc). split; [exact Hin|]. split; [eauto|].
      rewrite Hs. apply contains_ci_includes, Hc.
  - apply sublist_List_filter.
Qed.

Lemma ByNamePartial_sound_complete_witness :
  exists res,
    SearchName.matchedProperties Sample.Dataset "loft" = Normal res /\
    (forall item, item ∈ res <->
       item ∈ Sample.Dataset /\
       exists s, get item "NAME" = JStr s /\ s <> "" /\
                 Spec.contains_ci s (JSString.trim "loft")) /\
    res `sublist_of` Sample.Dataset.
Proof. apply (ByNamePartial_sound_complete Sample.Dataset "loft"). reflexivity. Defined.

(** C1, as stated, fails twice.  A listing whose [name] field contains the
    query is omitted, the filter reading [NAME]; and for a query with
    white space around it the result holds a listing whose name does not
    contain the query, the filter matching the trimmed query. *)
Lemma ByNamePartial_counterexample :
  (Sample.cozy_loft ∈ Sample.dataset /\
   get Sample.cozy_loft "name" = JStr "Cozy Loft" /\
   Spec.contains_ci "Cozy Loft" "loft" /\
   SearchName.matchedProperties Sample.dataset "loft" = Normal []) /\
  (SearchName.matchedProperties Sample.Dataset "loft " = Normal [Sample.Cozy_Loft] /\
   get Sample.Cozy_Loft "NAME" = JStr "Cozy Loft" /\
   (Spec.contains_ci "Cozy Loft" "loft " -> False)).
Proof.
  split; [split; [|split; [|split]] | split; [|split]].
  - apply list_elem_of_here.
  - reflexivity.
  - apply contains_ci_includes. reflexivity.
  - vm_compute. reflexivity.
  - vm_compute. reflexivity.
  - reflexivity.
  - intros H. apply contains_ci_includes in H. discriminate H.
Qed.

(** ** The scenario of the specification *)

(** C2 (amended).  On the two records with the name under the key [NAME]:
    the search for id "2" returns the second record, the search for the
    name "loft" exactly the first, the price range 100..200 exactly the
    first, the range 0..500 both in their order, and index 5 [undefined];
    the handlers render those results. *)
Theorem scenario_on_NAME_dataset :
  let D := Sample.Dataset in
  (SearchInvoiceID.record D "2" = JObj Sample.Sunny_Flat /\
   SearchName.matchedProperties D "loft" = Normal [Sample.Cozy_Loft] /\
   ViewDataPrice.filteredListings D (Number.of_Z 100) (Number.of_Z 200)
     = Normal [Sample.Cozy_Loft] /\
   ViewDataPrice.filteredListings D (Number.of_Z 0) (Number.of_Z 500)
     = Normal [Sample.Cozy_Loft; Sample.Sunny_Flat] /\
   InvoiceIndex.record D "5" = JUndefined) /\
  (SearchInvoiceID.handler D {[ "property_id" := "2" ]}
     = Render 200 "id_search_result"
         [("title", text "Search Result"); ("record", LValue (JObj Sample.Sunny_Flat))] /\
   SearchName.handler D {[ "name" := "loft" ]}
     = Render 200 "search_name_result"
         [("title", text "Search Results");
          ("matchedProperties", LListings [Sample.Cozy_Loft]);
          ("query", text "loft")] /\
   ViewDataPrice.handler D {[ "minPrice" := "100"; "maxPrice" := "200" ]}
     = Render 200 "price_result"
         [("title", LText [Lit "Listings between $"; Num (Number.of_Z 100);
                           Lit " and $"; Num (Number.of_Z 200)]);
          ("listings", LListings [Sample.Cozy_Loft])] /\
   ViewDataPrice.handler D {[ "minPrice" := "0"; "maxPrice" := "500" ]}
     = Render 200 "price_result"
         [("title", LText [Lit "Listings between $"; Num (Number.of_Z 0);
                           Lit " and $"; Num (Number.of_Z 500)]);
          ("listings", LListings [Sample.Cozy_Loft; Sample.Sunny_Flat])] /\
   InvoiceIndex.handler D "5"
     = Render 200 "id_search_result"
         [("title", text "Property Detail"); ("record", LValue JUndefined)]).
Proof. vm_compute. repeat split; reflexivity. Qed.

(** C2, as stated, fails on the name search: with the names under the key
    [name] the filter, which reads [NAME], matches nothing, and the handler
    reports that no property was found.  The other four results hold on the
    records as written. *)
Lemma scenario_counterexample :
  SearchName.matchedProperties Sample.dataset "loft" = Normal [] /\
  SearchName.handler Sample.dataset {[ "name" := "loft" ]}
    = Render 200 "search_name_result"
        [("title", text "Search Result");
         ("message", text ("No properties found containing " +:+ quote +:+ "loft" +:+ quote))] /\
  SearchInvoiceID.record Sample.dataset "2" = JObj Sample.sunny_flat /\
  ViewDataPrice.filteredListings Sample.dataset (Number.of_Z 100) (Number.of_Z 200)
    = Normal [Sample.cozy_loft] /\
  ViewDataPrice.filteredListings Sample.dataset (Number.of_Z 0) (Number.of_Z 500)
    = Normal [Sample.cozy_loft; Sample.sunny_flat] /\
  InvoiceIndex.record Sample.dataset "5" = JUndefined.
Proof. vm_compute. repeat split; reflexivity. Qed.

(** ** Filter by price *)

Section PriceFacts.

Import ViewDataPrice.

Lemma in_range_total (min max : JSNumber) (item : Listing) :
  Spec.price_ok item = true ->
  exists s,
    get item "price" = JStr s /\
    let p := Number.parseFloat (JSString.trim (JSString.replace s "$" "")) in
    in_range min max item = Normal (Number.ge p min && Number.le p max).
Proof.
  unfold Spec.price_ok, in_range, price.
  destruct (get item "price") as [| |b|n|s|l|o|f]; try discriminate.
  intros _. exists s. split; reflexivity.
Qed.

(** Without a string under [price] the predicate throws. *)
Lemma in_range_throws (min max : JSNumber) (item : Listing) :
  Spec.price_ok item = false -> in_range min max item = Throw TypeError.
Proof.
  unfold Spec.price_ok, in_range, price.
  destruct (get item "price") as [| |b|n|s|l|o|f]; try discriminate; reflexivity.
Qed.

(** A price that is no number excludes the listing and throws nothing. *)
Lemma unparseable_price_excluded (min max : JSNumber) (item : Listing) (s : string) :
  get item "price" = JStr s ->
  Number.parseFloat (JSString.trim (JSString.replace s "$" "")) = NaN ->
  in_range min max item = Normal false.
Proof. unfold in_range, price. intros -> H. simpl. rewrite H. reflexivity. Qed.

(** [replace] with the pattern "$": the string is unchanged when it holds
    no dollar sign, and loses the first one otherwise, wherever it is. *)
Lemma replace_dollar_absent (s : string) :
  JSString.includes s "$" = false -> JSString.replace s "$" "" = s.
Proof.
  induction s as [|c s IH]; [reflexivity|].
  cbn [JSString.includes JSString.replace]. intros H.
  apply orb_false_iff in H as [H1 H2]. rewrite H1, (IH H2). reflexivity.
Qed.

Lemma replace_dollar_first (pre post : string) :
  JSString.includes pre "$" = false ->
  JSString.replace (pre +:+ "$" +:+ post) "$" "" = pre +:+ post.
Proof.
  induction pre as [|c pre IH]; intros H.
  - reflexivity.
  - change (String c pre +:+ "$" +:+ post) with (String c (pre +:+ "$" +:+ post)).
    cbn [JSString.includes] in H. apply orb_false_iff in H as [H1 H2].
    cbn [JSString.replace JSString.startsWith] in H1 |- *.
    destruct (Ascii.eqb "$" c); [discriminate H1|].
    rewrite (IH H2). reflexivity.
Qed.

End PriceFacts.

(** A listing without a string price anywhere in the dataset makes the
    price filter throw, whatever the bounds. *)
Lemma filteredListings_throws (data : list Listing) (min max : JSNumber) (item : Listing) :
  item ∈ data -> Spec.price_ok item = false ->
  exists e, ViewDataPrice.filteredListings data min max = Throw e.
Proof.
  intros Hin Hbad. apply (filter_throws _ _ item TypeError Hin).
  apply in_range_throws, Hbad.
Qed.

Lemma filteredListings_total (data : list Listing) (min max : JSNumber) :
  forallb Spec.price_ok data = true ->
  ViewDataPrice.filteredListings data min max =
    Normal (List.filter
              (fun item =>
                 match ViewDataPrice.in_range min max item with
                 | Normal b => b
                 | Throw _ => false
                 end) data).
Proof.
  intros Hok. apply filter_total. intros item Hin.
  rewrite forallb_forall in Hok.
  destruct (in_range_total min max item) as (s & _ & ->); [|reflexivity].
  apply Hok, list_elem_of_In, Hin.
Qed.

(** C3.  The price filter on a dataset with a listing that has no [price]:
    reading [item.price.replace] throws a TypeError, for all bounds, and
    the request ends in that exception; the name filter, on a listing with
    no [NAME], excludes the listing and throws nothing. *)
Theorem ByPriceRange_absent_price_throws :
  Sample.no_price !! "price" = None /\
  (forall min max : JSNumber,
     ViewDataPrice.filteredListings [Sample.Cozy_Loft; Sample.no_price] min max
       = Throw TypeError) /\
  ViewDataPrice.handler [Sample.Cozy_Loft; Sample.no_price]
      {[ "minPrice" := "0"; "maxPrice" := "10" ]} = Uncaught TypeError /\
  SearchName.matchedProperties [Sample.cozy_loft] "" = Normal [].
Proof.
  split; [reflexivity|]. split; [|split; vm_compute; reflexivity].
  intros min max. unfold ViewDataPrice.filteredListings. cbn [Array.filter].
  rewrite (in_range_throws _ _ Sample.no_price) by reflexivity.
  destruct (ViewDataPrice.in_range min max Sample.Cozy_Loft) as [b|[]]; reflexivity.
Qed.




(** X19.  With [min > max] the price filter never returns a listing: any
    result it returns is empty, and on a dataset whose prices are strings
    it returns the empty result. *)
Theorem ByPriceRange_reversed_bounds_empty
    (data : list Listing) (min max : JSNumber) :
  Number.gt min max = true ->
  (forall res, ViewDataPrice.filteredListings data min max = Normal res -> res = []) /\
  (forallb Spec.price_ok data = true ->
   ViewDataPrice.filteredListings data min max = Normal []).
Proof.
  intros Hgt.
  assert (Hno : forall item b,
            ViewDataPrice.in_range min max item = Normal b -> b = false).
  { intros item b. unfold ViewDataPrice.in_range.
    destruct (ViewDataPrice.price item) as [p|e]; simpl; [|discriminate].
    intros [= <-]. apply reversed_interval, Hgt. }
  split.
  - unfold ViewDataPrice.filteredListings.
    induction data as [|item data IH]; cbn [Array.filter]; intros res.
    + intros [= <-]. reflexivity.
    + destruct (ViewDataPrice.in_range min max item) as [b|e] eqn:Eb; simpl; [|discriminate].
      destruct (Array.filter _ data) as [r|e]; simpl; [|discriminate].
      rewrite (Hno _ _ Eb). intros [= <-]. apply IH. reflexivity.
  - intros Hok. rewrite filteredListings_total by exact Hok. f_equal.
    apply List_filter_nil. intros item _.
    destruct (ViewDataPrice.in_range min max item) as [b|e] eqn:Eb; [|reflexivity].
    apply (Hno _ _ Eb).
Qed.

Lemma ByPriceRange_reversed_bounds_empty_witness :
  (forall res,
     ViewDataPrice.filteredListings Sample.Dataset (Number.of_Z 200) (Number.of_Z 100)
       = Normal res -> res = []) /\
  (forallb Spec.price_ok Sample.Dataset = true ->
   ViewDataPrice.filteredListings Sample.Dataset (Number.of_Z 200) (Number.of_Z 100)
     = Normal []).
Proof.
  apply (ByPriceRange_reversed_bounds_empty Sample.Dataset (Number.of_Z 200) (Number.of_Z 100)).
  reflexivity.
Defined.

(** C9.  Reversed bounds on a dataset with a listing that has no [price]:
    with the bounds 200 and 100 the filter throws the TypeError of the
    unguarded [item.price.replace] and the request ends in that exception,
    where the claim has the empty result; on the dataset whose listings all
    have a price the result is empty. *)
Theorem ByPriceRange_reversed_bounds_throws :
  Number.gt (Number.of_Z 200) (Number.of_Z 100) = true /\
  ViewDataPrice.filteredListings [Sample.Cozy_Loft; Sample.no_price]
    (Number.of_Z 200) (Number.of_Z 100) = Throw TypeError /\
  ViewDataPrice.handler [Sample.Cozy_Loft; Sample.no_price]
    {[ "minPrice" := "200"; "maxPrice" := "100" ]} = Uncaught TypeError /\
  ViewDataPrice.filteredListings Sample.Dataset (Number.of_Z 200) (Number.of_Z 100)
    = Normal [].
Proof. vm_compute. repeat split; reflexivity. Qed.

(** ** Search by id *)

Lemma strictEqualsString_spec (v : JSValue) (s : string) :
  strictEqualsString v s = true <-> v = JStr s.
Proof.
  destruct v as [| |b|n|t|l|o|f]; simpl; try (split; [discriminate | intros [=]]).
  rewrite String.eqb_eq. split; [intros ->; reflexivity | intros [= ->]; reflexivity].
Qed.

Lemma strictEqualsString_false (v : JSValue) (s : string) :
  strictEqualsString v s = false <-> v <> JStr s.
Proof.
  rewrite <- strictEqualsString_spec. destruct (strictEqualsString v s); split;
    intros H; try reflexivity; try discriminate; try exact (fun H' => eq_ind _ _ I _ H').
  exfalso. apply H. reflexivity.
Qed.

(** C5.  The search by id returns the first listing, in the order of the
    dataset, whose [id] is the query as a string, and [undefined] exactly
    when no listing has that [id]; a value that is not a string (a number)
    never equals the query; and on [undefined] the handler renders the
    message that no property was found. *)
Theorem ByID_first_exact_match (data : list Listing) (id : string) :
  (forall item,
     SearchInvoiceID.record data id = JObj item <->
     exists pre post,
       data = pre ++ item :: post /\ get item "id" = JStr id /\
       Forall (fun x => get x "id" <> JStr id) pre) /\
  (SearchInvoiceID.record data id = JUndefined <->
   Forall (fun x => get x "id" <> JStr id) data) /\
  (forall v, strictEqualsString v id = true <-> v = JStr id) /\
  (forall n, strictEqualsString (JNum n) id = false) /\
  (forall form,
     Validator.body "property_id" SearchInvoiceID.chain form = ([], id) ->
     SearchInvoiceID.handler data form =
       match SearchInvoiceID.record data id with
       | JObj item =>
           Render 200 "id_search_result"
             [("title", text "Search Result"); ("record", LValue (JObj item))]
       | _ =>
           Render 200 "id_search_result"
             [("title", text "Search Result");
              ("message", text "No property found with that ID")]
       end).
Proof.
  assert (Hpre : forall l : list Listing,
            Forall (fun y => strictEqualsString (get y "id") id = false) l <->
            Forall (fun x => get x "id" <> JStr id) l).
  { intros l. apply Forall_proper; [|reflexivity].
    intros x. apply strictEqualsString_false. }
  unfold SearchInvoiceID.record.
  split; [|split; [|split; [|split]]].
  - intros item.
    destruct (Array.find _ data) as [found|] eqn:E.
    + apply find_first in E as (pre & post & Hd & Hx & Hp).
      apply strictEqualsString_spec in Hx. apply Hpre in Hp. split.
      * intros [= <-]. eauto.
      * intros (pre' & post' & Hd' & Hx' & Hp'). f_equal.
        assert (Array.find (fun item0 => strictEqualsString (get item0 "id") id) data
                = Some item) as E2.
        { apply find_first. exists pre', post'. rewrite strictEqualsString_spec, Hpre. auto. }
        assert (Array.find (fun item0 => strictEqualsString (get item0 "id") id) data
                = Some found) as E1.
        { apply find_first. exists pre, post. rewrite strictEqualsString_spec, Hpre. auto. }
        congruence.
    + split; [discriminate|]. intros (pre & post & Hd & Hx & Hp).
      apply find_none in E. rewrite Hd in E. apply Forall_app in E as [_ E].
      apply Forall_cons in E as [E _]. apply strictEqualsString_false in E. contradiction.
  - destruct (Array.find _ data) as [found|] eqn:E.
    + split; [discriminate|]. intros H. apply Hpre, find_none in H. congruence.
    + split; [|reflexivity]. intros _. apply Hpre, find_none, E.
  - intros v. apply strictEqualsString_spec.
  - reflexivity.
  - intros form Hv. unfold SearchInvoiceID.handler. rewrite Hv. cbn [length Nat.eqb negb].
    unfold SearchInvoiceID.record.
    destruct (Array.find _ data); reflexivity.
Qed.

(** ** Lookup by index *)

Section IndexFacts.

(** The decimal form of a natural number is its own array index. *)
Lemma index_of_decimal (n : N) :
  Array.index_of_key (NilEmpty.string_of_uint (N.to_uint n)) =
    if (n <? 2 ^ 32 - 1)%N then Some n else None.
Proof.
  unfold Array.index_of_key.
  rewrite NilEmpty.usu, DecimalN.Unsigned.of_to, String.eqb_refl. reflexivity.
Qed.

Lemma decimal_head (n : N) :
  exists c r,
    NilEmpty.string_of_uint (N.to_uint n) = String c r /\ Number.is_digit c = true.
Proof.
  destruct (N.to_uint n) as [|d|d|d|d|d|d|d|d|d|d] eqn:E;
    try (eexists _, _; split; reflexivity).
  exfalso. destruct n as [|p]; [discriminate E|].
  exact (DecimalPos.Unsigned.to_uint_nonnil p E).
Qed.

(** A key that starts with a digit or a minus sign is neither [length]
    nor an inherited name. *)
Lemma digit_key_ordinary (c : ascii) (r : string) :
  Number.is_digit c = true ->
  String.eqb (String c r) "length" = false /\
  existsb (String.eqb (String c r)) Array.inherited_keys = false.
Proof.
  intros H. destruct c as [[] [] [] [] [] [] [] []];
    try discriminate H; split; reflexivity.
Qed.

Lemma get_minus_key (a : list Listing) (r : string) :
  Array.get a (String "-" r) = JUndefined.
Proof.
  unfold Array.get, Array.index_of_key. cbn [NilEmpty.uint_of_string].
  destruct (NilEmpty.uint_of_string r); reflexivity.
Qed.

Lemma get_decimal (a : list Listing) (n : N) :
  (Z.of_nat (length a) < 2 ^ 32)%Z ->
  Array.get a (NilEmpty.string_of_uint (N.to_uint n)) =
    match a !! N.to_nat n with
    | Some item => JObj item
    | None => JUndefined
    end.
Proof.
  intros Hlen. unfold Array.get. rewrite index_of_decimal.
  destruct (n <? 2 ^ 32 - 1)%N eqn:E; [reflexivity|].
  apply N.ltb_ge in E.
  rewrite (lookup_ge_None_2 a) by lia.
  destruct (decimal_head n) as (c & r & -> & Hc).
  destruct (digit_key_ordinary c r Hc) as [-> ->]. reflexivity.
Qed.

End IndexFacts.

(** C6.  The lookup by index 5 on the two-record dataset, out of range:
    the record is [undefined], and the handler hands it to the result view
    with the title alone; for no dataset and no index does it hand over a
    message.  The id search, which renders the same view, finds no record
    for "5" either and hands over the message that no property was
    found. *)
Theorem ByIndex_out_of_range_no_message :
  InvoiceIndex.record Sample.Dataset "5" = JUndefined /\
  InvoiceIndex.handler Sample.Dataset "5" =
    Render 200 "id_search_result"
      [("title", text "Property Detail"); ("record", LValue JUndefined)] /\
  (forall (data : list Listing) (index : string),
     local_of (InvoiceIndex.handler data index) "message" = None) /\
  SearchInvoiceID.record Sample.Dataset "5" = JUndefined /\
  local_of (SearchInvoiceID.handler Sample.Dataset {[ "property_id" := "5" ]}) "message"
    = Some (text "No property found with that ID").
Proof.
  split; [vm_compute; reflexivity|]. split; [vm_compute; reflexivity|].
  split; [intros data index; reflexivity|].
  split; vm_compute; reflexivity.
Qed.

(** X18.  The lookup by an integer index written in decimal: the listing
    at that position when the index is in range, and [undefined] when it is
    negative or beyond the end.  (A JavaScript array has fewer than
    [2 ^ 32] elements.) *)
Theorem index_lookup_by_position (data : list Listing) (i : Z) :
  (Z.of_nat (length data) < 2 ^ 32)%Z ->
  InvoiceIndex.record data (Spec.decimal i) =
    match (if (i <? 0)%Z then None else data !! Z.to_nat i) with
    | Some item => JObj item
    | None => JUndefined
    end.
Proof.
  intros Hlen. unfold InvoiceIndex.record, Spec.decimal.
  destruct (i <? 0)%Z eqn:E.
  - apply get_minus_key.
  - rewrite get_decimal by exact Hlen. rewrite Z_N_nat. reflexivity.
Qed.

Lemma index_lookup_by_position_witness :
  InvoiceIndex.record Sample.Dataset (Spec.decimal 1) =
    match (if (1 <? 0)%Z then None else Sample.Dataset !! Z.to_nat 1) with
    | Some item => JObj item
    | None => JUndefined
    end.
Proof. apply (index_lookup_by_position Sample.Dataset 1). reflexivity. Defined.

(** ** The preview and the state of the server *)

Lemma handle_state (req : Request) (p : Process) : snd (handle req p) = p.
Proof. destruct req; reflexivity. Qed.

(** No sequence of requests changes the dataset. *)
Lemma serve_state (reqs : list Request) (p : Process) : snd (serve reqs p) = p.
Proof.
  induction reqs as [|req reqs IH]; [reflexivity|].
  cbn [serve]. pose proof (handle_state req p) as Hh.
  destruct (handle req p) as [r p']. simpl in Hh. subst p'.
  destruct (serve reqs p) as [rs p'']. simpl in IH. subst p''. reflexivity.
Qed.

(** C7.  [slice(0, n)] is the first [n] listings: a prefix of the dataset
    of [min n size] elements, for every [n], also beyond the size; the
    preview is the slice for [n = 20]; and after any sequence of requests
    the dataset is unchanged and the preview request returns that same
    result. *)
Theorem Slice_preview (data : list Listing) :
  (forall n : nat,
     Array.slice data 0 (Z.of_nat n) = take n data /\
     length (Array.slice data 0 (Z.of_nat n)) = Nat.min n (length data) /\
     Array.slice data 0 (Z.of_nat n) `prefix_of` data) /\
  AllData.limitedData data = Array.slice data 0 (Z.of_nat 20) /\
  (forall reqs : list Request,
     let p := {| airbnb_json := data |} in
     snd (serve reqs p) = p /\
     fst (handle GET_allData (snd (serve reqs p))) =
       Render 200 "allData"
         [("title", text "First 20 Airbnb Listings");
          ("listings", LListings (take 20 data))]).
Proof.
  split; [|split].
  - intros n. rewrite slice_0. split; [reflexivity|]. split.
    + apply length_take.
    + apply prefix_take.
  - reflexivity.
  - intros reqs p. rewrite serve_state. split; [reflexivity|].
    subst p. cbn [handle fst airbnb_json]. unfold AllData.handler, AllData.limitedData.
    change 20%Z with (Z.of_nat 20). rewrite slice_0. reflexivity.
Qed.

(** ** The validation gate *)

Section ValidationFacts.

Import Validator.

Lemma run_required_numeric (m1 m2 f v : string) :
  run [notEmpty; withMessage m1; isNumeric_; withMessage m2; trim_; escape_] f v =
    ((if isEmpty v then [{| path := f; msg := m1; value := v |}] else []) ++
     (if isNumeric v then [] else [{| path := f; msg := m2; value := v |}]),
     escape (trim v)).
Proof.
  cbn [run passes]. destruct (isEmpty v), (isNumeric v); reflexivity.
Qed.

Lemma run_required (m f v : string) :
  run [notEmpty; withMessage m; trim_; escape_] f v =
    (if isEmpty v then [{| path := f; msg := m; value := v |}] else [],
     escape (trim v)).
Proof. cbn [run passes]. destruct (isEmpty v); reflexivity. Qed.

Lemma empty_not_numeric (v : string) : v = "" -> isNumeric v = false.
Proof. intros ->. reflexivity. Qed.

Lemma isEmpty_spec (v : string) : isEmpty v = true <-> v = "".
Proof. destruct v; simpl; split; intros H; try reflexivity; discriminate. Qed.

End ValidationFacts.

(** C8.  A submission that fails validation is answered without the
    dataset: whatever the state of the process, the handler renders the
    view of the form it came from, with the same title and a non-empty list
    of errors, each naming its field and carrying its message, and leaves
    the state as it was. *)
Theorem invalid_form_skips_query (req : Request) :
  Spec.invalid req ->
  exists view title errors,
    errors <> [] /\
    Forall (fun e => Validator.path e <> "" /\ Validator.msg e <> "") errors /\
    forall p : Process,
      handle (Spec.form_of req) p = (Render 200 view [("title", title)], p) /\
      handle req p =
        (Render 200 view [("title", title); ("errors", LErrors errors)], p).
Proof.
  destruct req as [| | | | | |form| |form| | | |form|]; simpl; try contradiction.
  - intros H.
    assert (Hn : Validator.isNumeric (Spec.field form "property_id") = false).
    { destruct H as [H|H]; [apply empty_not_numeric, H | exact H]. }
    unfold SearchInvoiceID.handler, Validator.body, SearchInvoiceID.chain.
    fold (Spec.field form "property_id").
    rewrite run_required_numeric, Hn.
    destruct (Validator.isEmpty (Spec.field form "property_id"));
      eexists _, _, _; (split; [|split]);
      [ | | intros p; split; reflexivity | | | intros p; split; reflexivity ];
      first [ discriminate | repeat (constructor; [split; discriminate|]); constructor ].
  - intros H.
    unfold SearchName.handler, Validator.body, SearchName.chain.
    fold (Spec.field form "name").
    rewrite run_required, H.
    eexists _, _, _; (split; [|split]); [ | | intros p; split; reflexivity ];
      first [ discriminate | repeat (constructor; [split; discriminate|]); constructor ].
  - intros H.
    assert (Hn : Validator.isNumeric (Spec.field form "minPrice") = false \/
                 Validator.isNumeric (Spec.field form "maxPrice") = false).
    { destruct H as [H|[H|[H|H]]]; auto using empty_not_numeric. }
    unfold ViewDataPrice.handler, Validator.body,
      ViewDataPrice.minPrice_chain, ViewDataPrice.maxPrice_chain.
    fold (Spec.field form "minPrice"). fold (Spec.field form "maxPrice").
    rewrite !run_required_numeric.
    destruct Hn as [Hn|Hn]; rewrite Hn;
      destruct (Validator.isEmpty (Spec.field form "minPrice"));
      destruct (Validator.isEmpty (Spec.field form "maxPrice"));
      try destruct (Validator.isNumeric (Spec.field form "maxPrice"));
      try destruct (Validator.isNumeric (Spec.field form "minPrice"));
      eexists _, _, _; (split; [|split]);
      try (intros p; split; reflexivity);
      first [ discriminate | repeat (constructor; [split; discriminate|]); constructor ].
Qed.

Lemma invalid_form_skips_query_witness :
  exists view title errors,
    errors <> [] /\
    Forall (fun e => Validator.path e <> "" /\ Validator.msg e <> "") errors /\
    forall p : Process,
      handle (Spec.form_of (POST_search_name ∅)) p = (Render 200 view [("title", title)], p) /\
      handle (POST_search_name ∅) p =
        (Render 200 view [("title", title); ("errors", LErrors errors)], p).
Proof. apply (invalid_form_skips_query (POST_search_name ∅)). reflexivity. Defined.

(** C10.  A name of white space only passes validation, the check for
    emptiness coming before the trimming, and is sanitized to the empty
    string; the search for the empty string returns the listings with a
    non-empty name, all of them and in their order, on a dataset whose
    names are strings where present; and the handler renders that result. *)
Theorem whitespace_name_matches_all_named
    (data : list Listing) (form : gmap string string) (q : string) :
  form !! "name" = Some q ->
  q <> "" ->
  JSString.all_white_space q = true ->
  forallb Spec.name_ok data = true ->
  Validator.body "name" SearchName.chain form = ([], "") /\
  SearchName.matchedProperties data "" = Normal (List.filter Spec.named data) /\
  SearchName.handler data form =
    match List.filter Spec.named data with
    | [] =>
        Render 200 "search_name_result"
          [("title", text "Search Result");
           ("message", text ("No properties found containing " +:+ quote +:+ quote))]
    | matched =>
        Render 200 "search_name_result"
          [("title", text "Search Results");
           ("matchedProperties", LListings matched);
           ("query", text "")]
    end.
Proof.
  intros Hq Hne Hws Hok.
  assert (Hbody : Validator.body "name" SearchName.chain form = ([], "")).
  { unfold Validator.body, SearchName.chain. rewrite Hq.
    change (default "" (Some q)) with q. rewrite run_required.
    replace (Validator.isEmpty q) with false
      by (symmetry; apply not_true_is_false; rewrite isEmpty_spec; exact Hne).
    unfold Validator.trim. rewrite trim_white by exact Hws. reflexivity. }
  assert (Hm : SearchName.matchedProperties data "" = Normal (List.filter Spec.named data)).
  { rewrite matchedProperties_total by exact Hok. f_equal.
    apply List.filter_ext. intros item. unfold Spec.named, Spec.name_includes.
    change (SearchName.searchName "") with "".
    destruct (get item "NAME"); rewrite ?includes_empty, ?andb_true_r, ?andb_false_r; reflexivity. }
  split; [exact Hbody|]. split; [exact Hm|].
  unfold SearchName.handler. rewrite Hbody, Hm. cbn [length Nat.eqb negb].
  destruct (List.filter Spec.named data); reflexivity.
Qed.

Lemma whitespace_name_matches_all_named_witness :
  Validator.body "name" SearchName.chain {[ "name" := "   " ]} = ([], "") /\
  SearchName.matchedProperties (Sample.Dataset ++ [Sample.cozy_loft]) ""
    = Normal (List.filter Spec.named (Sample.Dataset ++ [Sample.cozy_loft])) /\
  SearchName.handler (Sample.Dataset ++ [Sample.cozy_loft]) {[ "name" := "   " ]} =
    match List.filter Spec.named (Sample.Dataset ++ [Sample.cozy_loft]) with
    | [] =>
        Render 200 "search_name_result"
          [("title", text "Search Result");
           ("message", text ("No properties found containing " +:+ quote +:+ quote))]
    | matched =>
        Render 200 "search_name_result"
          [("title", text "Search Results");
           ("matchedProperties", LListings matched);
           ("query", text "")]
    end.
Proof.
  apply (whitespace_name_matches_all_named
           (Sample.Dataset ++ [Sample.cozy_loft]) {[ "name" := "   " ]} "   ").
  - reflexivity.
  - discriminate.
  - reflexivity.
  - reflexivity.
Defined.

(** ** The model on concrete inputs *)

Example parseFloat_values :
  Number.parseFloat "100.00" = Finite 100 /\
  Number.parseFloat "0.1" = Finite (3602879701896397 # 36028797018963968) /\
  Number.parseFloat "9007199254740993" = Finite 9007199254740992 /\
  Number.parseFloat " 1e3x" = Finite 1000 /\
  Number.parseFloat "5.e-1" = Finite (1 # 2) /\
  Number.parseFloat "-.5" = Finite (-1 # 2) /\
  Number.parseFloat "1e" = Finite 1 /\
  Number.parseFloat ".e1" = NaN /\
  Number.parseFloat "" = NaN /\
  Number.parseFloat "on request" = NaN /\
  Number.parseFloat "1.7976931348623159e308" = PosInfinity /\
  Number.parseFloat "-Infinity" = NegInfinity /\
  Number.parseFloat "2e-324" = Finite 0.
Proof. vm_compute. repeat split; reflexivity. Qed.

Example isNumeric_values :
  map Validator.isNumeric ["12"; "-12.5"; "+.5"; "12."; ""; "+"; "1.2.3"; " 1"; "1e3"]
  = [true; true; true; false; false; false; false; false; false].
Proof. reflexivity. Qed.

Example sanitized_name :
  Validator.body "name" SearchName.chain {[ "name" := " Bob's <b> " ]}
  = ([], "Bob&#x27;s &lt;b&gt;").
Proof. vm_compute. reflexivity. Qed.

Example required_numeric_errors :
  map Validator.msg (fst (Validator.body "property_id" SearchInvoiceID.chain ∅))
  = ["Property ID is required"; "Property ID must be a number"].
Proof. vm_compute. reflexivity. Qed.

Example index_keys :
  InvoiceIndex.record Sample.Dataset "1" = JObj Sample.Sunny_Flat /\
  InvoiceIndex.record Sample.Dataset "01" = JUndefined /\
  InvoiceIndex.record Sample.Dataset "-1" = JUndefined /\
  InvoiceIndex.record Sample.Dataset "length" = JNum (Finite 2) /\
  InvoiceIndex.record Sample.Dataset "slice" = JBuiltin "slice".
Proof. vm_compute. repeat split; reflexivity. Qed.

Example numeric_id_skipped :
  SearchInvoiceID.record [Sample.numeric_id; Sample.Sunny_Flat] "2" = JObj Sample.Sunny_Flat.
Proof. vm_compute. reflexivity. Qed.

Example bad_price_excluded :
  ViewDataPrice.filteredListings [Sample.bad_price; Sample.Cozy_Loft]
    (Number.of_Z 0) (Number.of_Z 500) = Normal [Sample.Cozy_Loft].
Proof. vm_compute. reflexivity. Qed.

(** * Further properties *)

(** ** The service-fee helpers *)

Lemma trimEnd_empty (s : string) :
  JSString.trimEnd s = "" -> JSString.all_white_space s = true.
Proof.
  induction s as [|c s IH]; [reflexivity|].
  cbn [JSString.trimEnd JSString.all_white_space].
  destruct (JSString.trimEnd s) as [|d t]; [|discriminate].
  destruct (JSString.is_white_space c); [|discriminate].
  intros _. apply IH. reflexivity.
Qed.

Lemma trimStart_all_white (s : string) :
  JSString.all_white_space (JSString.trimStart s) = true ->
  JSString.all_white_space s = true.
Proof.
  induction s as [|c s IH]; [reflexivity|].
  cbn [JSString.trimStart JSString.all_white_space].
  destruct (JSString.is_white_space c) eqn:E; [exact IH|].
  cbn [JSString.all_white_space]. rewrite E. discriminate.
Qed.

(** [trim] empties exactly the strings of white space. *)
Lemma trim_empty_iff (s : string) :
  String.eqb (JSString.trim s) "" = JSString.all_white_space s.
Proof.
  destruct (JSString.all_white_space s) eqn:E.
  - rewrite trim_white by exact E. reflexivity.
  - apply String.eqb_neq. intros H. unfold JSString.trim in H.
    apply trimEnd_empty, trimStart_all_white in H. congruence.
Qed.

(** X1.  The two helpers test the same thing: on a string or a falsy
    value, [formatServiceFee] puts "0" in place of the fee and
    [highlightIfEmpty] returns the highlight style exactly when the fee is
    blank (falsy, or a string of white space only), and otherwise the fee
    comes back unchanged and the style is empty; on any other value both
    throw. *)
Theorem service_fee_helpers_agree (fee : JSValue) :
  if Pred.string_or_falsy fee then
    Helpers.formatServiceFee fee = Normal (if Pred.blank fee then JStr "0" else fee) /\
    Helpers.highlightIfEmpty fee =
      Normal (if Pred.blank fee
              then "background-color:#ffe8e8; font-weight:bold;" else "")
  else
    Helpers.formatServiceFee fee = Throw TypeError /\
    Helpers.highlightIfEmpty fee = Throw TypeError.
Proof.
  unfold Pred.string_or_falsy, Pred.blank, Helpers.formatServiceFee,
    Helpers.highlightIfEmpty.
  destruct fee as [| |b|[| |x|]|s|l|o|f]; cbn [toBoolean negb orb];
    try (split; reflexivity).
  - destruct b; split; reflexivity.
  - destruct (Qeq_bool x 0); split; reflexivity.
  - rewrite trim_empty_iff.
    destruct (String.eqb s "") eqn:E; cbn [negb orb].
    + apply String.eqb_eq in E. subst s. split; reflexivity.
    + destruct (JSString.all_white_space s); split; reflexivity.
Qed.

(** X2.  What [formatServiceFee] returns is never blank again: the
    formatter returns it unchanged and the highlighter gives it no
    style. *)
Theorem formatted_fee_not_blank (fee v : JSValue) :
  Helpers.formatServiceFee fee = Normal v ->
  Pred.blank v = false /\
  Helpers.formatServiceFee v = Normal v /\
  Helpers.highlightIfEmpty v = Normal "".
Proof.
  intros H.
  assert (Hv : Pred.string_or_falsy v = true /\ Pred.blank v = false).
  { pose proof (service_fee_helpers_agree fee) as Ha.
    destruct (Pred.string_or_falsy fee) eqn:Ef.
    - destruct Ha as [Ha _]. rewrite Ha in H. injection H as <-.
      destruct (Pred.blank fee) eqn:Eb; [split; reflexivity|]. auto.
    - destruct Ha as [Ha _]. congruence. }
  destruct Hv as [Hs Hb].
  pose proof (service_fee_helpers_agree v) as Ha.
  rewrite Hs, Hb in Ha. tauto.
Qed.

Lemma formatted_fee_not_blank_witness :
  Pred.blank (JStr "0") = false /\
  Helpers.formatServiceFee (JStr "0") = Normal (JStr "0") /\
  Helpers.highlightIfEmpty (JStr "0") = Normal "".
Proof. apply (formatted_fee_not_blank (JStr "   ") (JStr "0")). reflexivity. Defined.

(** ** Which requests end in an exception *)

Lemma numeric_not_empty (v : string) :
  Validator.isNumeric v = true -> Validator.isEmpty v = false.
Proof. destruct v; [discriminate | reflexivity]. Qed.

Lemma forallb_false_elem {A} (f : A -> bool) (l : list A) :
  forallb f l = false <-> exists x, x ∈ l /\ f x = false.
Proof.
  induction l as [|y l IH]; simpl.
  - split; [discriminate|]. intros (x & Hx & _). inversion Hx.
  - rewrite andb_false_iff, IH. split.
    + intros [H|(x & Hx & Hf)].
      * exists y. split; [apply list_elem_of_here | exact H].
      * exists x. split; [apply list_elem_of_further, Hx | exact Hf].
    + intros (x & Hx & Hf). apply elem_of_cons in Hx as [->|Hx]; eauto.
Qed.

Lemma matches_throws (sn : string) (item : Listing) :
  Spec.name_ok item = false -> SearchName.matches sn item = Throw TypeError.
Proof.
  unfold Spec.name_ok, SearchName.matches.
  destruct (get item "NAME") as [| |b|[| |x|]|s|l|o|f]; cbn [toBoolean negb];
    try discriminate; try reflexivity.
  - intros H. apply negb_false_iff in H. rewrite H. reflexivity.
  - intros H. apply negb_false_iff in H. rewrite H. reflexivity.
Qed.

(** X3.  The price request ends in an exception exactly when both bounds
    pass validation and some listing of the dataset has no string under
    [price]; the exception is a TypeError. *)
Theorem price_request_throws_iff (data : list Listing) (form : gmap string string) :
  ViewDataPrice.handler data form = Uncaught TypeError <->
  Validator.isNumeric (Spec.field form "minPrice") = true /\
  Validator.isNumeric (Spec.field form "maxPrice") = true /\
  exists item, item ∈ data /\ Spec.price_ok item = false.
Proof.
  unfold ViewDataPrice.handler, Validator.body,
    ViewDataPrice.minPrice_chain, ViewDataPrice.maxPrice_chain.
  fold (Spec.field form "minPrice"). fold (Spec.field form "maxPrice").
  rewrite !run_required_numeric.
  destruct (Validator.isNumeric (Spec.field form "minPrice")) eqn:Emin.
  - destruct (Validator.isNumeric (Spec.field form "maxPrice")) eqn:Emax.
    + rewrite (numeric_not_empty _ Emin), (numeric_not_empty _ Emax).
      cbn [app length Nat.eqb negb].
      destruct (forallb Spec.price_ok data) eqn:Eok.
      * rewrite filteredListings_total by exact Eok.
        split.
        -- destruct (Nat.eqb _ 0); discriminate.
        -- intros (_ & _ & Hbad). apply forallb_false_elem in Hbad. congruence.
      * apply forallb_false_elem in Eok as (item & Hin & Hbad).
        destruct (filteredListings_throws data
                    (Number.parseFloat (Validator.escape (Validator.trim (Spec.field form "minPrice"))))
                    (Number.parseFloat (Validator.escape (Validator.trim (Spec.field form "maxPrice"))))
                    item Hin Hbad) as [[] ->].
        split; [eauto 6 | reflexivity].
    + split; [|intros (_ & [=] & _)].
      destruct (Validator.isEmpty (Spec.field form "minPrice")),
        (Validator.isEmpty (Spec.field form "maxPrice")); discriminate.
  - split; [|intros ([=] & _)].
    destruct (Validator.isEmpty (Spec.field form "minPrice")),
      (Validator.isEmpty (Spec.field form "maxPrice")),
      (Validator.isNumeric (Spec.field form "maxPrice")); discriminate.
Qed.

(** On a name submitted once (a string): the handler throws exactly when
    the name is not empty and some listing has a truthy [NAME] that is not
    a string. *)
Lemma name_handler_throws_iff (data : list Listing) (form : gmap string string) :
  SearchName.handler data form = Uncaught TypeError <->
  Spec.field form "name" <> "" /\
  exists item, item ∈ data /\ Spec.name_ok item = false.
Proof.
  unfold SearchName.handler, Validator.body, SearchName.chain.
  fold (Spec.field form "name"). rewrite run_required.
  destruct (Validator.isEmpty (Spec.field form "name")) eqn:Ee.
  - apply isEmpty_spec in Ee. split; [discriminate|]. intros [H _]. contradiction.
  - assert (Hne : Spec.field form "name" <> "").
    { intros H. apply isEmpty_spec in H. congruence. }
    cbn [length Nat.eqb negb].
    destruct (forallb Spec.name_ok data) eqn:Eok.
    + rewrite matchedProperties_total by exact Eok. split.
      * destruct (Nat.eqb _ 0); discriminate.
      * intros (_ & Hbad). apply forallb_false_elem in Hbad. congruence.
    + apply forallb_false_elem in Eok as (item & Hin & Hbad).
      unfold SearchName.matchedProperties.
      destruct (filter_throws
                  (SearchName.matches
                     (SearchName.searchName
                        (Validator.escape (Validator.trim (Spec.field form "name")))))
                  data item TypeError Hin (matches_throws _ item Hbad)) as [[] ->].
      split; [eauto | reflexivity].
Qed.

(** ** A repeated name *)

Section RepeatedFieldFacts.

(** On a single value the chain on values is the chain on strings. *)
Lemma run_values_single (chain : list Validator.Link) (field v : string) :
  Body.run_values chain field [v] =
    (fst (Validator.run chain field v), [snd (Validator.run chain field v)]).
Proof.
  revert v. induction chain as [|l chain IH]; intros v; [reflexivity|].
  destruct l; cbn [Body.run_values Validator.run map List.filter];
    try (rewrite IH; reflexivity);
    rewrite IH; destruct (Validator.run chain field v) as [es v'];
    cbn [fst snd]; destruct (Validator.passes _ v); reflexivity.
Qed.

Lemma run_values_required (m field : string) (vs : list string) :
  Body.run_values
    [Validator.notEmpty; Validator.withMessage m; Validator.trim_; Validator.escape_]
    field vs =
  (map (fun v => {| Validator.path := field; Validator.msg := m; Validator.value := v |})
       (List.filter Validator.isEmpty vs),
   map Validator.escape (map Validator.trim vs)).
Proof.
  cbn [Body.run_values Validator.passes]. rewrite app_nil_r. f_equal. f_equal.
  apply List.filter_ext. intros v. apply negb_involutive.
Qed.

Lemma no_empty_value (vs : list string) :
  List.filter Validator.isEmpty vs = [] <-> Forall (fun s => s <> "") vs.
Proof.
  induction vs as [|v vs IH]; simpl.
  - split; auto.
  - destruct (Validator.isEmpty v) eqn:E.
    + split; [discriminate|]. intros H. apply Forall_cons in H as [H _].
      apply isEmpty_spec in E. contradiction.
    + rewrite IH. split.
      * intros H. constructor; [|exact H]. intros Hv. apply isEmpty_spec in Hv. congruence.
      * intros H. apply Forall_cons in H as [_ H]. exact H.
Qed.

(** On a name submitted once the handler is the handler on strings. *)
Lemma search_name_single (data : list Listing) (b : gmap string Body.Field) (v : string) :
  b !! "name" = Some (Body.Single v) ->
  Body.search_name data b = SearchName.handler data {[ "name" := v ]}.
Proof.
  intros Hb. unfold Body.search_name, Body.body, SearchName.handler, Validator.body.
  rewrite Hb, lookup_singleton_eq, run_values_single.
  change (default "" (Some v)) with v.
  destruct (Validator.run SearchName.chain "name" v) as [es v']. reflexivity.
Qed.

Lemma search_name_absent (data : list Listing) (b : gmap string Body.Field) :
  b !! "name" = None ->
  Body.search_name data b = SearchName.handler data ∅.
Proof.
  intros Hb. unfold Body.search_name, Body.body, SearchName.handler, Validator.body.
  rewrite Hb, lookup_empty, run_values_single.
  change (default "" None) with "".
  destruct (Validator.run SearchName.chain "name" "") as [es v']. reflexivity.
Qed.

(** The handler on strings is the handler on bodies whose fields are all
    single. *)
Lemma search_name_strings (data : list Listing) (form : gmap string string) :
  Body.search_name data (Body.Single <$> form) = SearchName.handler data form.
Proof.
  destruct (form !! "name") as [v|] eqn:E.
  - rewrite (search_name_single data _ v) by (rewrite lookup_fmap, E; reflexivity).
    unfold SearchName.handler, Validator.body. rewrite E, lookup_singleton_eq. reflexivity.
  - rewrite search_name_absent by (rewrite lookup_fmap, E; reflexivity).
    unfold SearchName.handler, Validator.body. rewrite E, lookup_empty. reflexivity.
Qed.

End RepeatedFieldFacts.

(** X4.  The name request ends in an exception exactly in two cases: the
    name arrives as an array (a repeated field) with no empty value, which
    passes validation and has no [trim] to call, whatever the dataset; or
    it is a non-empty string and some listing has a truthy [NAME] that is
    not a string.  The exception is a TypeError. *)
Theorem name_request_throws_iff (data : list Listing) (b : gmap string Body.Field) :
  Body.search_name data b = Uncaught TypeError <->
  (exists names,
     b !! "name" = Some (Body.Repeated names) /\ Forall (fun s => s <> "") names) \/
  (exists name,
     b !! "name" = Some (Body.Single name) /\ name <> "" /\
     exists item, item ∈ data /\ Spec.name_ok item = false).
Proof.
  destruct (b !! "name") as [[v|names]|] eqn:Hb.
  - rewrite (search_name_single data b v Hb), name_handler_throws_iff.
    unfold Spec.field. rewrite lookup_singleton_eq. change (default "" (Some v)) with v.
    split.
    + intros [Hne Hbad]. right. exists v. auto.
    + intros [(names & [=] & _)|(name & [= <-] & Hne & Hbad)]. auto.
  - unfold Body.search_name, Body.body, SearchName.chain. rewrite Hb, run_values_required.
    destruct (List.filter Validator.isEmpty names) as [|e es] eqn:Ef.
    + cbn [map length Nat.eqb negb]. split; [|reflexivity].
      intros _. left. exists names. split; [reflexivity|]. apply no_empty_value, Ef.
    + cbn [map length Nat.eqb negb]. split; [discriminate|].
      intros [(names' & [= <-] & Hall)|(name & [=] & _)].
      apply no_empty_value in Hall. congruence.
  - rewrite (search_name_absent data b Hb), name_handler_throws_iff.
    unfold Spec.field. rewrite lookup_empty. change (default "" None) with "".
    split.
    + intros [Hne _]. contradiction.
    + intros [(names & [=] & _)|(name & [=] & _)].
Qed.

(** ** Numeric fields *)

Section NumericFieldFacts.

(** What [take_digits] reads depends on the string only: a run of digits
    [ds], up to a rest that starts with no digit. *)
Lemma take_digits_shape (s : string) :
  exists ds r,
    s = ds +:+ r /\
    Pred.all Number.is_digit ds = true /\
    match r with
    | EmptyString => True
    | String c _ => Number.is_digit c = false
    end /\
    forall a c, exists v, Number.take_digits s a c = (v, (c + String.length ds)%nat, r).
Proof.
  induction s as [|ch s IH].
  - exists "", "". repeat split. intros a c. exists a. simpl. f_equal. f_equal. lia.
  - destruct (Number.is_digit ch) eqn:E.
    + destruct IH as (ds & r & -> & Hds & Hr & Ht).
      exists (String ch ds), r. split; [reflexivity|]. split.
      * simpl. rewrite E. exact Hds.
      * split; [exact Hr|]. intros a c. cbn [Number.take_digits]. rewrite E.
        destruct (Ht (10 * a + Number.digit_value ch)%Z (S c)) as [v ->].
        exists v. f_equal. f_equal. simpl. lia.
    + exists "", (String ch s). split; [reflexivity|]. split; [reflexivity|].
      split; [exact E|]. intros a c. exists a. cbn [Number.take_digits]. rewrite E.
      f_equal. f_equal. simpl. lia.
Qed.

Lemma append_empty_r (s : string) : s +:+ "" = s.
Proof.
  induction s as [|c s IH]; [reflexivity|].
  change (String c s +:+ "") with (String c (s +:+ "")). rewrite IH. reflexivity.
Qed.

Lemma all_app (f : ascii -> bool) (s t : string) :
  Pred.all f (s +:+ t) = Pred.all f s && Pred.all f t.
Proof.
  induction s as [|c s IH]; [reflexivity|].
  change (String c s +:+ t) with (String c (s +:+ t)).
  cbn [Pred.all]. rewrite IH. apply andb_assoc.
Qed.

Lemma all_weaken (f g : ascii -> bool) (s : string) :
  (forall c, f c = true -> g c = true) -> Pred.all f s = true -> Pred.all g s = true.
Proof.
  intros Hfg. induction s as [|c s IH]; [reflexivity|].
  cbn [Pred.all]. rewrite !andb_true_iff. intros [H1 H2]. auto.
Qed.

(** The shape of an unsigned numeric string. *)
Lemma unsigned_numeric_shape (u : string) :
  Pred.unsigned_numeric u = true ->
  exists ds1 ds2,
    Pred.all Number.is_digit ds1 = true /\ Pred.all Number.is_digit ds2 = true /\
    ((u = ds1 /\ ds1 <> "" /\ ds2 = "") \/ (u = ds1 +:+ String "." ds2 /\ ds2 <> "")).
Proof.
  unfold Pred.unsigned_numeric.
  destruct (take_digits_shape u) as (ds1 & r1 & -> & Hd1 & _ & Ht).
  destruct (Ht 0%Z O) as [v ->]. cbn [Nat.add].
  destruct r1 as [|c r1'].
  - intros H. exists ds1, "". split; [exact Hd1|]. split; [reflexivity|]. left.
    split; [apply append_empty_r|]. split; [|reflexivity].
    destruct ds1; [discriminate H | discriminate].
  - destruct (Ascii.eqb_spec c ".") as [->|Hc].
    + destruct (take_digits_shape r1') as (ds2 & r2 & -> & Hd2 & _ & Ht2).
      destruct (Ht2 0%Z O) as [v2 ->]. cbn [Nat.add].
      rewrite andb_true_iff. intros [Hn Hr]. apply String.eqb_eq in Hr. subst r2.
      exists ds1, ds2. split; [exact Hd1|]. split; [exact Hd2|]. right. split.
      * rewrite append_empty_r. reflexivity.
      * destruct ds2; [discriminate Hn | discriminate].
    + intros H. exfalso. apply Hc. clear -H.
      destruct c as [[] [] [] [] [] [] [] []]; try discriminate H. reflexivity.
Qed.

(** [isNumeric] is an optional sign before an unsigned numeric string. *)
Lemma isNumeric_cons (c : ascii) (r : string) :
  Validator.isNumeric (String c r) =
    if Ascii.eqb c "+" || Ascii.eqb c "-" then Pred.unsigned_numeric r
    else Pred.unsigned_numeric (String c r).
Proof. destruct c as [[] [] [] [] [] [] [] []]; reflexivity. Qed.

Lemma numeric_unit_plain (c : ascii) :
  Pred.numeric_unit c = true ->
  JSString.is_white_space c = false /\ Validator.escape_unit c = String c "".
Proof.
  intros H. destruct c as [[] [] [] [] [] [] [] []]; try discriminate H;
    split; reflexivity.
Qed.

Lemma isNumeric_units (s : string) :
  Validator.isNumeric s = true -> Pred.all Pred.numeric_unit s = true.
Proof.
  assert (Hu : forall u, Pred.unsigned_numeric u = true ->
                         Pred.all Pred.numeric_unit u = true).
  { intros u Hu. apply unsigned_numeric_shape in Hu as (ds1 & ds2 & H1 & H2 & Hs).
    assert (Hw : forall c, Number.is_digit c = true -> Pred.numeric_unit c = true).
    { intros c Hc. unfold Pred.numeric_unit. rewrite Hc. reflexivity. }
    apply (all_weaken _ _ _ Hw) in H1. apply (all_weaken _ _ _ Hw) in H2.
    destruct Hs as [(-> & _ & _)|(-> & _)]; [exact H1|].
    rewrite all_app, H1. cbn [Pred.all andb]. exact H2. }
  destruct s as [|c r]; [reflexivity|]. rewrite isNumeric_cons.
  destruct (Ascii.eqb c "+" || Ascii.eqb c "-") eqn:E.
  - intros H. cbn [Pred.all]. rewrite (Hu _ H), andb_true_r.
    unfold Pred.numeric_unit. apply orb_true_iff in E as [->| ->];
      rewrite ?orb_true_r; reflexivity.
  - apply Hu.
Qed.

Lemma plain_trim (s : string) :
  Pred.all Pred.numeric_unit s = true -> JSString.trim s = s.
Proof.
  intros H. unfold JSString.trim.
  assert (Hs : JSString.trimStart s = s).
  { destruct s as [|c s]; [reflexivity|]. cbn [Pred.all] in H.
    apply andb_true_iff in H as [H _]. apply numeric_unit_plain in H as [H _].
    cbn [JSString.trimStart]. rewrite H. reflexivity. }
  rewrite Hs. clear Hs. induction s as [|c s IH]; [reflexivity|].
  cbn [Pred.all] in H. apply andb_true_iff in H as [Hc Hs].
  apply numeric_unit_plain in Hc as [Hc _].
  cbn [JSString.trimEnd]. rewrite (IH Hs), Hc. destruct s; reflexivity.
Qed.

Lemma plain_escape (s : string) :
  Pred.all Pred.numeric_unit s = true -> Validator.escape s = s.
Proof.
  induction s as [|c s IH]; [reflexivity|].
  cbn [Pred.all]. rewrite andb_true_iff. intros [Hc Hs].
  apply numeric_unit_plain in Hc as [_ Hc].
  cbn [Validator.escape]. rewrite Hc, (IH Hs). reflexivity.
Qed.

(** The sanitizers leave a numeric field as it is. *)
Lemma numeric_sanitized (s : string) :
  Validator.isNumeric s = true -> Validator.escape (Validator.trim s) = s.
Proof.
  intros H. apply isNumeric_units in H. unfold Validator.trim.
  rewrite plain_trim by exact H. apply plain_escape, H.
Qed.

Lemma run_required_numeric_iff (m1 m2 f v v' : string) :
  Validator.run
    [Validator.notEmpty; Validator.withMessage m1; Validator.isNumeric_;
     Validator.withMessage m2; Validator.trim_; Validator.escape_] f v = ([], v') <->
  Validator.isNumeric v = true /\ v' = v.
Proof.
  rewrite run_required_numeric. split.
  - destruct (Validator.isNumeric v) eqn:E.
    + rewrite (numeric_not_empty v E), (numeric_sanitized v E).
      intros [= <-]. auto.
    + destruct (Validator.isEmpty v); discriminate.
  - intros [E ->]. rewrite E, (numeric_not_empty v E), (numeric_sanitized v E).
    reflexivity.
Qed.

End NumericFieldFacts.

(** X6.  A numeric field passes its chain exactly when [isNumeric] accepts
    it as submitted, and then the sanitizers change nothing: the id and the
    bounds that reach the queries are the submitted strings. *)
Theorem numeric_fields_pass_unchanged (form : gmap string string) (v : string) :
  (Validator.body "property_id" SearchInvoiceID.chain form = ([], v) <->
   Validator.isNumeric (Spec.field form "property_id") = true /\
   v = Spec.field form "property_id") /\
  (Validator.body "minPrice" ViewDataPrice.minPrice_chain form = ([], v) <->
   Validator.isNumeric (Spec.field form "minPrice") = true /\
   v = Spec.field form "minPrice") /\
  (Validator.body "maxPrice" ViewDataPrice.maxPrice_chain form = ([], v) <->
   Validator.isNumeric (Spec.field form "maxPrice") = true /\
   v = Spec.field form "maxPrice").
Proof.
  split; [|split];
    unfold Validator.body, SearchInvoiceID.chain, ViewDataPrice.minPrice_chain,
      ViewDataPrice.maxPrice_chain;
    apply run_required_numeric_iff.
Qed.

(** ** Validated bounds *)

Section BoundsFacts.

Lemma of_decimal_number (m x : Z) : Pred.is_number (Number.of_decimal m x) = true.
Proof.
  unfold Number.of_decimal, Number.binary64_of_pos. cbv zeta.
  repeat match goal with
         | |- context [if ?b then _ else _] => destruct b
         end; reflexivity.
Qed.

Lemma neg_number (x : JSNumber) :
  Pred.is_number x = true -> Pred.is_number (Number.neg x) = true.
Proof. destruct x; intros H; try discriminate H; reflexivity. Qed.

Lemma unsigned_literal_number (u : string) :
  Pred.unsigned_numeric u = true ->
  Pred.is_number (Number.unsigned_literal u) = true.
Proof.
  unfold Pred.unsigned_numeric, Number.unsigned_literal.
  destruct (JSString.startsWith u "Infinity"); [reflexivity|].
  destruct (take_digits_shape u) as (ds1 & r1 & -> & Hd1 & _ & Ht).
  destruct (Ht 0%Z O) as [ip ->]. cbn [Nat.add].
  destruct r1 as [|c r1'].
  - destruct ds1; [discriminate|]. intros _. apply of_decimal_number.
  - destruct (Ascii.eqb_spec c ".") as [->|Hc].
    + destruct (take_digits_shape r1') as (ds2 & r2 & -> & Hd2 & _ & Ht2).
      destruct (Ht2 0%Z O) as [v2 ->]. destruct (Ht2 ip O) as [m ->]. cbn [Nat.add].
      destruct ds2; [discriminate|]. intros _.
      destruct (String.length ds1); apply of_decimal_number.
    + intros H. exfalso. apply Hc. clear -H.
      destruct c as [[] [] [] [] [] [] [] []]; try discriminate H. reflexivity.
Qed.

Lemma parseFloat_cons (c : ascii) (r : string) :
  JSString.is_white_space c = false ->
  Number.parseFloat (String c r) =
    if Ascii.eqb c "+" then Number.unsigned_literal r
    else if Ascii.eqb c "-" then Number.neg (Number.unsigned_literal r)
    else Number.unsigned_literal (String c r).
Proof.
  intros H. destruct c as [[] [] [] [] [] [] [] []]; try discriminate H; reflexivity.
Qed.

End BoundsFacts.

(** X7.  A field that [isNumeric] accepts parses to a number, never to
    [NaN], and to the same number after the sanitizers: the bounds of a
    price request that passed validation are numbers. *)
Theorem numeric_field_parses (s : string) :
  Validator.isNumeric s = true ->
  Pred.is_number (Number.parseFloat s) = true /\
  Number.parseFloat (Validator.escape (Validator.trim s)) = Number.parseFloat s.
Proof.
  intros H. split; [|rewrite numeric_sanitized by exact H; reflexivity].
  pose proof (isNumeric_units s H) as Hu.
  destruct s as [|c r]; [discriminate H|].
  cbn [Pred.all] in Hu. apply andb_true_iff in Hu as [Hc _].
  apply numeric_unit_plain in Hc as [Hc _].
  rewrite isNumeric_cons in H. rewrite parseFloat_cons by exact Hc.
  destruct (Ascii.eqb c "+"); cbn [orb] in H.
  - apply unsigned_literal_number, H.
  - destruct (Ascii.eqb c "-").
    + apply neg_number, unsigned_literal_number, H.
    + apply unsigned_literal_number, H.
Qed.

Lemma numeric_field_parses_witness :
  Pred.is_number (Number.parseFloat "-12.50") = true /\
  Number.parseFloat (Validator.escape (Validator.trim "-12.50")) = Number.parseFloat "-12.50".
Proof. apply (numeric_field_parses "-12.50"). reflexivity. Defined.

(** X8.  The id search by the route: the handler renders a record exactly
    when the submitted [property_id] is numeric and the record is the
    first listing of the dataset whose [id] is that very string; so a
    listing is found under the id as typed, with no trimming or other
    change, and a listing whose id is not numeric is never found. *)
Theorem id_request_renders_record
    (data : list Listing) (form : gmap string string) (item : Listing) :
  SearchInvoiceID.handler data form =
    Render 200 "id_search_result"
      [("title", text "Search Result"); ("record", LValue (JObj item))] <->
  Validator.isNumeric (Spec.field form "property_id") = true /\
  exists pre post,
    data = pre ++ item :: post /\
    get item "id" = JStr (Spec.field form "property_id") /\
    Forall (fun x => get x "id" <> JStr (Spec.field form "property_id")) pre.
Proof.
  unfold SearchInvoiceID.handler, Validator.body, SearchInvoiceID.chain.
  fold (Spec.field form "property_id"). rewrite run_required_numeric.
  destruct (Validator.isNumeric (Spec.field form "property_id")) eqn:E.
  - rewrite (numeric_not_empty _ E), (numeric_sanitized _ E).
    cbn [app length Nat.eqb negb]. unfold SearchInvoiceID.record.
    set (id := Spec.field form "property_id").
    assert (Hpre : forall l : list Listing,
              Forall (fun y => strictEqualsString (get y "id") id = false) l <->
              Forall (fun x => get x "id" <> JStr id) l).
    { intros l. apply Forall_proper; [|reflexivity].
      intros x. apply strictEqualsString_false. }
    destruct (Array.find _ data) as [found|] eqn:Ef; cbn [toBoolean negb].
    + split.
      * intros [= <-]. split; [reflexivity|].
        apply find_first in Ef as (pre & post & Hd & Hx & Hp).
        exists pre, post. rewrite <- Hpre. apply strictEqualsString_spec in Hx. auto.
      * intros (_ & pre & post & Hd & Hx & Hp).
        assert (Array.find (fun i => strictEqualsString (get i "id") id) data = Some item) as E2.
        { apply find_first. exists pre, post. rewrite strictEqualsString_spec, Hpre. auto. }
        congruence.
    + split; [discriminate|]. intros (_ & pre & post & Hd & Hx & Hp).
      apply find_none in Ef. rewrite Hd in Ef. apply Forall_app in Ef as [_ Ef].
      apply Forall_cons in Ef as [Ef _]. apply strictEqualsString_false in Ef.
      contradiction.
  - split; [|intros [[=] _]].
    destruct (Validator.isEmpty (Spec.field form "property_id")); discriminate.
Qed.

(** ** The sanitized name *)

Section SanitizedNameFacts.

Lemma all_trimStart (f : ascii -> bool) (s : string) :
  Pred.all f s = true -> Pred.all f (JSString.trimStart s) = true.
Proof.
  induction s as [|c s IH]; [reflexivity|].
  cbn [JSString.trimStart]. intros H.
  destruct (JSString.is_white_space c); [|exact H].
  cbn [Pred.all] in H. apply andb_true_iff in H as [_ H]. auto.
Qed.

Lemma all_trimEnd (f : ascii -> bool) (s : string) :
  Pred.all f s = true -> Pred.all f (JSString.trimEnd s) = true.
Proof.
  induction s as [|c s IH]; [reflexivity|].
  cbn [JSString.trimEnd Pred.all]. rewrite andb_true_iff. intros [Hc Hs].
  specialize (IH Hs). destruct (JSString.trimEnd s) as [|d t].
  - destruct (JSString.is_white_space c); [reflexivity|].
    cbn [Pred.all]. rewrite Hc. reflexivity.
  - cbn [Pred.all] in IH |- *. rewrite Hc. exact IH.
Qed.

Lemma all_toLowerCase (s : string) :
  Pred.all (fun c => negb (Pred.special c)) s = true ->
  Pred.all (fun c => negb (Pred.special c)) (JSString.toLowerCase s) = true.
Proof.
  induction s as [|c s IH]; [reflexivity|].
  cbn [JSString.toLowerCase Pred.all]. rewrite !andb_true_iff. intros [Hc Hs].
  split; [|auto]. clear -Hc.
  destruct c as [[] [] [] [] [] [] [] []]; try discriminate Hc; reflexivity.
Qed.

(** [escape] leaves none of the special characters. *)
Lemma escape_no_special (s : string) :
  Pred.all (fun c => negb (Pred.special c)) (Validator.escape s) = true.
Proof.
  induction s as [|c s IH]; [reflexivity|].
  cbn [Validator.escape]. rewrite all_app, IH, andb_true_r.
  destruct c as [[] [] [] [] [] [] [] []]; reflexivity.
Qed.

Lemma starts_well_trimStart (s : string) :
  Pred.starts_well (JSString.trimStart s) = true.
Proof.
  induction s as [|c s IH]; [reflexivity|].
  cbn [JSString.trimStart]. destruct (JSString.is_white_space c) eqn:E; [exact IH|].
  cbn [Pred.starts_well]. rewrite E. reflexivity.
Qed.

Lemma starts_well_trimEnd (s : string) :
  Pred.starts_well s = true -> Pred.starts_well (JSString.trimEnd s) = true.
Proof.
  destruct s as [|c s]; [reflexivity|].
  cbn [Pred.starts_well JSString.trimEnd]. intros H.
  destruct (JSString.trimEnd s).
  - apply negb_true_iff in H. rewrite H. cbn [Pred.starts_well]. rewrite H. reflexivity.
  - exact H.
Qed.

Lemma ends_well_trimEnd (s : string) : Pred.ends_well (JSString.trimEnd s) = true.
Proof.
  induction s as [|c s IH]; [reflexivity|].
  cbn [JSString.trimEnd]. destruct (JSString.trimEnd s) as [|d t].
  - destruct (JSString.is_white_space c) eqn:E; [reflexivity|].
    cbn [Pred.ends_well]. rewrite E. reflexivity.
  - exact IH.
Qed.

Lemma trimStart_fix (s : string) :
  Pred.starts_well s = true -> JSString.trimStart s = s.
Proof.
  destruct s as [|c s]; [reflexivity|].
  cbn [Pred.starts_well JSString.trimStart]. intros H.
  apply negb_true_iff in H. rewrite H. reflexivity.
Qed.

Lemma trimEnd_fix (s : string) :
  Pred.ends_well s = true -> JSString.trimEnd s = s.
Proof.
  induction s as [|c s IH]; [reflexivity|].
  cbn [Pred.ends_well JSString.trimEnd]. destruct s as [|d s'].
  - intros H. apply negb_true_iff in H. cbn [JSString.trimEnd]. rewrite H. reflexivity.
  - intros H. rewrite (IH H). reflexivity.
Qed.

Lemma trim_fix (s : string) :
  Pred.starts_well s = true -> Pred.ends_well s = true -> JSString.trim s = s.
Proof.
  intros H1 H2. unfold JSString.trim. rewrite trimStart_fix by exact H1.
  apply trimEnd_fix, H2.
Qed.

Lemma ends_well_app (u v : string) :
  v <> "" -> Pred.ends_well (u +:+ v) = Pred.ends_well v.
Proof.
  intros Hv. induction u as [|a u IH]; [reflexivity|].
  change (String a u +:+ v) with (String a (u +:+ v)).
  cbn [Pred.ends_well]. destruct (u +:+ v) eqn:E; [|exact IH].
  destruct u; [|discriminate E]. simpl in E. contradiction.
Qed.

Lemma escape_not_empty (c : ascii) (s : string) : Validator.escape (String c s) <> "".
Proof.
  cbn [Validator.escape].
  destruct c as [[] [] [] [] [] [] [] []]; discriminate.
Qed.

Lemma escape_starts_well (s : string) :
  Pred.starts_well s = true -> Pred.starts_well (Validator.escape s) = true.
Proof.
  destruct s as [|c s]; [reflexivity|].
  cbn [Pred.starts_well Validator.escape]. intros H.
  destruct c as [[] [] [] [] [] [] [] []]; try discriminate H; reflexivity.
Qed.

Lemma escape_ends_well (s : string) :
  Pred.ends_well s = true -> Pred.ends_well (Validator.escape s) = true.
Proof.
  induction s as [|c s IH]; [reflexivity|].
  cbn [Pred.ends_well]. destruct s as [|d s'].
  - intros H. cbn [Validator.escape].
    destruct c as [[] [] [] [] [] [] [] []]; try discriminate H; reflexivity.
  - intros H. change (Validator.escape (String c (String d s')))
      with (Validator.escape_unit c +:+ Validator.escape (String d s')).
    rewrite ends_well_app by apply escape_not_empty. exact (IH H).
Qed.

Lemma sanitized_name_trimmed (v : string) :
  JSString.trim (Validator.escape (Validator.trim v)) = Validator.escape (Validator.trim v).
Proof.
  unfold Validator.trim, JSString.trim at 2 3. apply trim_fix.
  - apply escape_starts_well, starts_well_trimEnd, starts_well_trimStart.
  - apply escape_ends_well, ends_well_trimEnd.
Qed.

End SanitizedNameFacts.

(** X9.  Whatever name is submitted, the sanitized name (the one echoed on
    the result page) and the string the filter searches for hold no quote,
    angle bracket, slash, backslash or backtick: a listing is never matched
    on such a character as typed. *)
Theorem sanitized_name_has_no_special (form : gmap string string) :
  let name := snd (Validator.body "name" SearchName.chain form) in
  Pred.all (fun c => negb (Pred.special c)) name = true /\
  Pred.all (fun c => negb (Pred.special c)) (SearchName.searchName name) = true.
Proof.
  cbv zeta. unfold Validator.body, SearchName.chain. rewrite run_required.
  cbn [snd]. split; [apply escape_no_special|].
  unfold SearchName.searchName, JSString.trim.
  apply all_toLowerCase, all_trimEnd, all_trimStart, escape_no_special.
Qed.

(** X10.  The sanitized name has no white space around it, so the [trim]
    of the handler changes nothing: the filter searches for the sanitized
    name in lower case. *)
Theorem handler_trim_is_redundant (form : gmap string string) :
  let name := snd (Validator.body "name" SearchName.chain form) in
  JSString.trim name = name /\
  SearchName.searchName name = JSString.toLowerCase name.
Proof.
  cbv zeta. unfold Validator.body, SearchName.chain. rewrite run_required.
  cbn [snd]. unfold SearchName.searchName. rewrite sanitized_name_trimmed. auto.
Qed.

(** ** Searching by name: case and narrowing *)

Section NameSearchFacts.

Lemma white_space_lower (c : ascii) :
  JSString.is_white_space (JSString.lower_unit c) = JSString.is_white_space c.
Proof. destruct c as [[] [] [] [] [] [] [] []]; reflexivity. Qed.

Lemma toLowerCase_trimStart (s : string) :
  JSString.toLowerCase (JSString.trimStart s) = JSString.trimStart (JSString.toLowerCase s).
Proof.
  induction s as [|c s IH]; [reflexivity|].
  cbn [JSString.toLowerCase JSString.trimStart]. rewrite white_space_lower.
  destruct (JSString.is_white_space c); [exact IH | reflexivity].
Qed.

Lemma toLowerCase_trimEnd (s : string) :
  JSString.toLowerCase (JSString.trimEnd s) = JSString.trimEnd (JSString.toLowerCase s).
Proof.
  induction s as [|c s IH]; [reflexivity|].
  cbn [JSString.toLowerCase JSString.trimEnd]. rewrite <- IH, white_space_lower.
  destruct (JSString.trimEnd s); cbn [JSString.toLowerCase]; [|reflexivity].
  destruct (JSString.is_white_space c); reflexivity.
Qed.

(** The searched string is the trimmed lower-case query. *)
Lemma searchName_lower (q : string) :
  SearchName.searchName q = JSString.trim (JSString.toLowerCase q).
Proof.
  unfold SearchName.searchName, JSString.trim.
  rewrite toLowerCase_trimEnd, toLowerCase_trimStart. reflexivity.
Qed.

Lemma append_assoc (s t u : string) : (s +:+ t) +:+ u = s +:+ t +:+ u.
Proof.
  induction s as [|c s IH]; [reflexivity|].
  change ((String c s +:+ t) +:+ u) with (String c ((s +:+ t) +:+ u)).
  rewrite IH. reflexivity.
Qed.

Lemma includes_trans (s t u : string) :
  JSString.includes s t = true -> JSString.includes t u = true ->
  JSString.includes s u = true.
Proof.
  rewrite !includes_spec. intros (p1 & q1 & ->) (p2 & q2 & ->).
  exists (p1 +:+ p2), (q2 +:+ q1). rewrite !append_assoc. reflexivity.
Qed.

Lemma List_filter_narrow {A} (f g : A -> bool) (l : list A) :
  (forall x, g x = true -> f x = true) ->
  List.filter g (List.filter f l) = List.filter g l.
Proof.
  intros Hgf. induction l as [|x l IH]; [reflexivity|]. simpl.
  destruct (f x) eqn:Ef; simpl.
  - rewrite IH. reflexivity.
  - destruct (g x) eqn:Eg; [|exact IH]. rewrite (Hgf x Eg) in Ef. discriminate.
Qed.

(** A name search that returns was run on well-typed names. *)
Lemma matchedProperties_Normal (data : list Listing) (q : string) (r : list Listing) :
  SearchName.matchedProperties data q = Normal r ->
  forallb Spec.name_ok data = true.
Proof.
  intros H. destruct (forallb Spec.name_ok data) eqn:E; [reflexivity|].
  apply forallb_false_elem in E as (item & Hin & Hbad).
  destruct (filter_throws (SearchName.matches (SearchName.searchName q)) data item
              TypeError Hin (matches_throws _ item Hbad)) as [e He].
  unfold SearchName.matchedProperties in H. congruence.
Qed.

Lemma forallb_List_filter {A} (f g : A -> bool) (l : list A) :
  forallb f l = true -> forallb f (List.filter g l) = true.
Proof.
  induction l as [|x l IH]; [reflexivity|]. simpl.
  rewrite andb_true_iff. intros [Hx Hl].
  destruct (g x); simpl; [rewrite Hx|]; auto.
Qed.

End NameSearchFacts.

(** X11.  The name search ignores the case of the query: two queries that
    are equal in lower case give the same result (or the same
    exception). *)
Theorem name_search_ignores_query_case (data : list Listing) (q1 q2 : string) :
  JSString.toLowerCase q1 = JSString.toLowerCase q2 ->
  SearchName.matchedProperties data q1 = SearchName.matchedProperties data q2.
Proof.
  intros H. unfold SearchName.matchedProperties.
  rewrite !searchName_lower, H. reflexivity.
Qed.

Lemma name_search_ignores_query_case_witness :
  SearchName.matchedProperties Sample.Dataset "LoFt"
  = SearchName.matchedProperties Sample.Dataset "loft".
Proof. apply (name_search_ignores_query_case Sample.Dataset "LoFt" "loft"). reflexivity. Defined.

(** X12.  A longer query narrows the search: when the string searched for
    [q1] occurs in the string searched for [q2] and the search for [q2]
    returns, the search for [q1] returns too, the result for [q2] is a
    sublist of it, and searching the result for [q1] with [q2] gives the
    result for [q2]. *)
Theorem name_search_narrows (data : list Listing) (q1 q2 : string) (r2 : list Listing) :
  JSString.includes (SearchName.searchName q2) (SearchName.searchName q1) = true ->
  SearchName.matchedProperties data q2 = Normal r2 ->
  exists r1,
    SearchName.matchedProperties data q1 = Normal r1 /\
    r2 `sublist_of` r1 /\
    SearchName.matchedProperties r1 q2 = Normal r2.
Proof.
  intros Hinc H2. pose proof (matchedProperties_Normal _ _ _ H2) as Hok.
  rewrite matchedProperties_total in H2 by exact Hok. injection H2 as <-.
  eexists. split; [apply matchedProperties_total, Hok|].
  assert (Hgf : forall x,
            Spec.named x && Spec.name_includes (SearchName.searchName q2) x = true ->
            Spec.named x && Spec.name_includes (SearchName.searchName q1) x = true).
  { intros x. rewrite !andb_true_iff. intros [Hn Hi]. split; [exact Hn|].
    unfold Spec.name_includes in *. destruct (get x "NAME"); try discriminate Hi.
    exact (includes_trans _ _ _ Hi Hinc). }
  split.
  - rewrite <- (List_filter_narrow _ _ data Hgf). apply sublist_List_filter.
  - rewrite matchedProperties_total by (apply forallb_List_filter, Hok).
    f_equal. apply List_filter_narrow, Hgf.
Qed.

Lemma name_search_narrows_witness :
  exists r1,
    SearchName.matchedProperties Sample.Dataset "o" = Normal r1 /\
    [Sample.Cozy_Loft] `sublist_of` r1 /\
    SearchName.matchedProperties r1 "Loft" = Normal [Sample.Cozy_Loft].
Proof.
  apply (name_search_narrows Sample.Dataset "o" "Loft" [Sample.Cozy_Loft]).
  - reflexivity.
  - vm_compute. reflexivity.
Defined.

(** ** Filtering by price: narrowing *)

Section PriceNarrowFacts.

Lemma filteredListings_Normal
    (data : list Listing) (min max : JSNumber) (r : list Listing) :
  ViewDataPrice.filteredListings data min max = Normal r ->
  forallb Spec.price_ok data = true.
Proof.
  intros H. destruct (forallb Spec.price_ok data) eqn:E; [reflexivity|].
  apply forallb_false_elem in E as (item & Hin & Hbad).
  destruct (filteredListings_throws data min max item Hin Hbad) as [e He].
  congruence.
Qed.

End PriceNarrowFacts.

(** X13.  Filtering a price result again: with the same bounds nothing is
    dropped, and with bounds inside the first range the result is the one
    the narrower range gives on the whole dataset. *)
Theorem price_filter_narrows
    (data : list Listing) (min max : JSNumber) (r : list Listing) :
  ViewDataPrice.filteredListings data min max = Normal r ->
  ViewDataPrice.filteredListings r min max = Normal r /\
  forall min' max',
    Spec.le min min' -> Spec.le max' max ->
    ViewDataPrice.filteredListings r min' max'
    = ViewDataPrice.filteredListings data min' max'.
Proof.
  intros H. pose proof (filteredListings_Normal _ _ _ _ H) as Hok.
  rewrite filteredListings_total in H by exact Hok. injection H as <-.
  split.
  - rewrite filteredListings_total by (apply forallb_List_filter, Hok).
    f_equal. apply List_filter_narrow. auto.
  - intros min' max' Hmin Hmax.
    rewrite filteredListings_total by (apply forallb_List_filter, Hok).
    rewrite (filteredListings_total data) by exact Hok.
    f_equal. apply List_filter_narrow. intros item.
    unfold ViewDataPrice.in_range.
    destruct (ViewDataPrice.price item) as [p|e]; simpl; [|discriminate].
    rewrite !andb_true_iff, !ge_spec, !le_spec. intros [H1 H2]. split.
    + exact (le_trans _ _ _ Hmin H1).
    + exact (le_trans _ _ _ H2 Hmax).
Qed.

Lemma price_filter_narrows_witness :
  ViewDataPrice.filteredListings Sample.Dataset (Number.of_Z 0) (Number.of_Z 500)
  = Normal Sample.Dataset /\
  forall min' max',
    Spec.le (Number.of_Z 0) min' -> Spec.le max' (Number.of_Z 500) ->
    ViewDataPrice.filteredListings Sample.Dataset min' max'
    = ViewDataPrice.filteredListings Sample.Dataset min' max'.
Proof.
  apply (price_filter_narrows Sample.Dataset (Number.of_Z 0) (Number.of_Z 500) Sample.Dataset).
  vm_compute. reflexivity.
Defined.

(** ** Reading a price *)

Section PriceReadingFacts.

Lemma take_digits_app (ds t : string) (a : Z) (c : nat) :
  Pred.all Number.is_digit ds = true ->
  match t with
  | EmptyString => True
  | String ch _ => Number.is_digit ch = false
  end ->
  Number.take_digits (ds +:+ t) a c =
    (fst (fst (Number.take_digits ds a c)), (c + String.length ds)%nat, t).
Proof.
  revert a c. induction ds as [|d ds IH]; intros a c Hds Ht.
  - change ("" +:+ t) with t. cbn [String.length]. rewrite Nat.add_0_r.
    destruct t as [|ch t]; [reflexivity|]. cbn [Number.take_digits]. rewrite Ht.
    reflexivity.
  - change (String d ds +:+ t) with (String d (ds +:+ t)).
    cbn [Pred.all] in Hds. apply andb_true_iff in Hds as [Hd Hds].
    cbn [Number.take_digits String.length]. rewrite Hd, (IH _ _ Hds Ht).
    f_equal. f_equal. lia.
Qed.

Lemma stops_not_digit (t : string) :
  match t with
  | EmptyString => True
  | String ch _ => Pred.stops ch = true
  end ->
  match t with
  | EmptyString => True
  | String ch _ => Number.is_digit ch = false
  end.
Proof.
  destruct t as [|ch t]; [auto|]. unfold Pred.stops. intros H.
  apply negb_true_iff in H. apply orb_false_iff in H as [H _].
  apply orb_false_iff in H as [H _]. apply orb_false_iff in H as [H _]. exact H.
Qed.

(** Digits followed by nothing, or by a character that continues no
    literal, are read as the digits alone. *)
Lemma unsigned_literal_digits (ds t : string) :
  Pred.all Number.is_digit ds = true -> ds <> "" ->
  match t with
  | EmptyString => True
  | String ch _ => Pred.stops ch = true
  end ->
  Number.unsigned_literal (ds +:+ t) =
    Number.of_decimal (fst (fst (Number.take_digits ds 0%Z O))) 0.
Proof.
  intros Hds Hne Ht. unfold Number.unsigned_literal.
  replace (JSString.startsWith (ds +:+ t) "Infinity") with false.
  2:{ destruct ds as [|d ds]; [contradiction|].
      cbn [Pred.all] in Hds. apply andb_true_iff in Hds as [Hd _].
      change (String d ds +:+ t) with (String d (ds +:+ t)).
      destruct d as [[] [] [] [] [] [] [] []]; try discriminate Hd; reflexivity. }
  rewrite take_digits_app by (try apply stops_not_digit; assumption).
  destruct ds as [|d ds]; [contradiction|]. cbn [String.length Nat.add].
  destruct t as [|ch t]; [reflexivity|].
  destruct ch as [[] [] [] [] [] [] [] []]; try discriminate Ht; reflexivity.
Qed.

Lemma parseFloat_digits (ds t : string) :
  Pred.all Number.is_digit ds = true -> ds <> "" ->
  match t with
  | EmptyString => True
  | String ch _ => Pred.stops ch = true
  end ->
  Number.parseFloat (ds +:+ t) =
    Number.of_decimal (fst (fst (Number.take_digits ds 0%Z O))) 0.
Proof.
  intros Hds Hne Ht. rewrite <- (unsigned_literal_digits ds t Hds Hne Ht).
  destruct ds as [|d ds]; [contradiction|].
  cbn [Pred.all] in Hds. apply andb_true_iff in Hds as [Hd _].
  change (String d ds +:+ t) with (String d (ds +:+ t)).
  destruct d as [[] [] [] [] [] [] [] []]; try discriminate Hd; reflexivity.
Qed.

Lemma trimEnd_digits_app (ds t : string) :
  Pred.all Number.is_digit ds = true ->
  JSString.trimEnd (ds +:+ t) = ds +:+ JSString.trimEnd t.
Proof.
  induction ds as [|d ds IH]; intros Hds; [reflexivity|].
  cbn [Pred.all] in Hds. apply andb_true_iff in Hds as [Hd Hds].
  change (String d ds +:+ t) with (String d (ds +:+ t)).
  change (String d ds +:+ JSString.trimEnd t) with (String d (ds +:+ JSString.trimEnd t)).
  cbn [JSString.trimEnd]. rewrite (IH Hds).
  destruct (ds +:+ JSString.trimEnd t); [|reflexivity].
  destruct d as [[] [] [] [] [] [] [] []]; try discriminate Hd; reflexivity.
Qed.

Lemma trimEnd_head (c : ascii) (r : string) :
  match JSString.trimEnd (String c r) with
  | EmptyString => True
  | String ch _ => ch = c
  end.
Proof.
  cbn [JSString.trimEnd]. destruct (JSString.trimEnd r).
  - destruct (JSString.is_white_space c); [exact I | reflexivity].
  - reflexivity.
Qed.

End PriceReadingFacts.

(** X14.  A price is read up to its first character that continues no
    number: for a price of a dollar sign, digits, and then a character that
    is no digit, dot or exponent letter (a comma, a space), the filter
    compares the digits alone and ignores the rest. *)
Theorem price_read_up_to_separator
    (item : Listing) (ds rest : string) (c : ascii) :
  Pred.all Number.is_digit ds = true ->
  ds <> "" ->
  Pred.stops c = true ->
  get item "price" = JStr ("$" +:+ ds +:+ String c rest) ->
  ViewDataPrice.price item = Normal (Number.parseFloat ds).
Proof.
  intros Hds Hne Hc Hp. unfold ViewDataPrice.price. rewrite Hp. f_equal.
  change (JSString.replace ("$" +:+ ds +:+ String c rest) "$" "")
    with (ds +:+ String c rest).
  unfold JSString.trim.
  replace (JSString.trimStart (ds +:+ String c rest)) with (ds +:+ String c rest).
  2:{ destruct ds as [|d ds]; [contradiction|].
      cbn [Pred.all] in Hds. apply andb_true_iff in Hds as [Hd _].
      change (String d ds +:+ String c rest) with (String d (ds +:+ String c rest)).
      destruct d as [[] [] [] [] [] [] [] []]; try discriminate Hd; reflexivity. }
  rewrite trimEnd_digits_app by exact Hds.
  rewrite <- (append_empty_r ds) at 2.
  rewrite !parseFloat_digits; try assumption; try exact I; [reflexivity|].
  pose proof (trimEnd_head c rest) as Hh.
  destruct (JSString.trimEnd (String c rest)); [exact I|]. subst. exact Hc.
Qed.

Lemma price_read_up_to_separator_witness :
  ViewDataPrice.price {[ "id" := JStr "7"; "price" := JStr "$1,200 " ]}
  = Normal (Number.parseFloat "1").
Proof.
  apply (price_read_up_to_separator
           {[ "id" := JStr "7"; "price" := JStr "$1,200 " ]} "1" "200 " ","%char).
  - reflexivity.
  - discriminate.
  - reflexivity.
  - reflexivity.
Defined.

(** ** Positions: id search, index lookup and preview *)

(** X15.  The id search agrees with the lookup by index: the listing it
    returns is the one the index lookup returns at some position of the
    dataset, and no listing before that position has the id. *)
Theorem id_search_is_an_index (data : list Listing) (id : string) (item : Listing) :
  (Z.of_nat (length data) < 2 ^ 32)%Z ->
  SearchInvoiceID.record data id = JObj item ->
  exists i : nat,
    (i < length data)%nat /\
    InvoiceIndex.record data (Spec.decimal (Z.of_nat i)) = JObj item /\
    forall j other,
      (j < i)%nat -> data !! j = Some other -> get other "id" <> JStr id.
Proof.
  intros Hlen. unfold SearchInvoiceID.record.
  destruct (Array.find _ data) as [found|] eqn:E; [|discriminate].
  intros [= ->]. apply find_first in E as (pre & post & Hd & Hx & Hp).
  exists (length pre). subst data. split; [rewrite length_app; simpl; lia|]. split.
  - unfold InvoiceIndex.record, Spec.decimal.
    replace (Z.of_nat (length pre) <? 0)%Z with false by (symmetry; apply Z.ltb_ge; lia).
    rewrite get_decimal by exact Hlen. rewrite Z_N_nat, Nat2Z.id.
    rewrite list_lookup_middle by reflexivity. reflexivity.
  - intros j other Hj Hl. rewrite lookup_app_l in Hl by exact Hj.
    rewrite Forall_lookup in Hp. apply strictEqualsString_false. exact (Hp j other Hl).
Qed.

Lemma id_search_is_an_index_witness :
  exists i : nat,
    (i < length Sample.Dataset)%nat /\
    InvoiceIndex.record Sample.Dataset (Spec.decimal (Z.of_nat i)) = JObj Sample.Sunny_Flat /\
    forall j other,
      (j < i)%nat -> Sample.Dataset !! j = Some other -> get other "id" <> JStr "2".
Proof.
  apply (id_search_is_an_index Sample.Dataset "2" Sample.Sunny_Flat).
  - reflexivity.
  - vm_compute. reflexivity.
Defined.

(** X16.  The preview shows at each position what the index lookup returns
    there: a listing is at position [i] of the preview exactly when [i] is
    below 20 and the lookup by index [i] returns it. *)
Theorem preview_agrees_with_index (data : list Listing) (i : nat) (item : Listing) :
  (Z.of_nat (length data) < 2 ^ 32)%Z ->
  AllData.limitedData data !! i = Some item <->
  (i < 20)%nat /\ InvoiceIndex.record data (Spec.decimal (Z.of_nat i)) = JObj item.
Proof.
  intros Hlen. unfold AllData.limitedData. change 20%Z with (Z.of_nat 20).
  rewrite slice_0, lookup_take_Some.
  unfold InvoiceIndex.record, Spec.decimal.
  replace (Z.of_nat i <? 0)%Z with false by (symmetry; apply Z.ltb_ge; lia).
  rewrite get_decimal by exact Hlen. rewrite Z_N_nat, Nat2Z.id.
  destruct (data !! i) as [x|]; split.
  - intros [[= ->] Hi]. auto.
  - intros [Hi [= ->]]. auto.
  - intros [[=] _].
  - intros [_ [=]].
Qed.

Lemma preview_agrees_with_index_witness :
  AllData.limitedData Sample.Dataset !! 1%nat = Some Sample.Sunny_Flat <->
  (1 < 20)%nat /\
  InvoiceIndex.record Sample.Dataset (Spec.decimal (Z.of_nat 1)) = JObj Sample.Sunny_Flat.
Proof. apply (preview_agrees_with_index Sample.Dataset 1 Sample.Sunny_Flat). reflexivity. Defined.

(** X17.  The lookup by index returns a listing only for the canonical
    decimal form of a position: a key with a sign, a leading zero, a
    fraction or white space returns no listing, even when the number it
    writes is in range. *)
Theorem index_lookup_needs_canonical_key
    (data : list Listing) (key : string) (item : Listing) :
  InvoiceIndex.record data key = JObj item ->
  exists i : nat, key = Spec.decimal (Z.of_nat i) /\ data !! i = Some item.
Proof.
  unfold InvoiceIndex.record, Array.get.
  destruct (Array.index_of_key key) as [n|] eqn:E.
  - unfold Array.index_of_key in E.
    destruct (NilEmpty.uint_of_string key) as [d|]; [|discriminate E].
    destruct (String.eqb _ key && _) eqn:Eb; [|discriminate E].
    injection E as <-. apply andb_true_iff in Eb as [Ek _].
    apply String.eqb_eq in Ek.
    destruct (data !! N.to_nat (N.of_uint d)) as [x|] eqn:El; [|discriminate].
    intros [= ->]. exists (N.to_nat (N.of_uint d)). split; [|exact El].
    unfold Spec.decimal.
    replace (Z.of_nat (N.to_nat (N.of_uint d)) <? 0)%Z with false
      by (symmetry; apply Z.ltb_ge; lia).
    rewrite N_nat_Z, N2Z.id. symmetry. exact Ek.
  - destruct (String.eqb key "length"); [discriminate|].
    destruct (existsb _ _); discriminate.
Qed.

Lemma index_lookup_needs_canonical_key_witness :
  exists i : nat, "1" = Spec.decimal (Z.of_nat i) /\ Sample.Dataset !! i = Some Sample.Sunny_Flat.
Proof.
  apply (index_lookup_needs_canonical_key Sample.Dataset "1" Sample.Sunny_Flat).
  vm_compute. reflexivity.
Defined.

Example repeated_name_throws :
  Body.search_name Sample.Dataset {[ "name" := Body.Repeated ["loft"; "cozy"] ]}
  = Uncaught TypeError /\
  map Validator.msg
    (fst (Body.body "name" SearchName.chain {[ "name" := Body.Repeated ["loft"; ""] ]}))
  = ["Property name is required"].
Proof. vm_compute. split; reflexivity. Qed.
